(** * hw_python_oop: the fitness-tracker module [homework.py]

    A shallow embedding of [homework.py]: the [Training] class hierarchy
    ([Running], [SportsWalking], [Swimming]) with its distance, mean-speed and
    calorie formulas, and the factory [read_package] with its validation.

    Python values are dynamically typed, so the fields of an instance are
    [pyval]s ([int], [float], [bool], [str]) and the arithmetic operators are
    the interpreter's: an [int] meeting a [float] is converted to a float
    (OverflowError when it does not fit), true division by zero raises
    ZeroDivisionError, a [str] operand raises TypeError.

    The float type is an interface ([PyFloat]) with two instances:
    - [binary64], the IEEE 754 doubles CPython computes with (Rocq's primitive
      floats), used wherever a claim is about what the program returns;
    - [exact], the rationals, in which the formulas can be read as the
      real-number identities they abbreviate. *)

From Stdlib Require Import ZArith QArith Qcanon Qabs Qpower Lqa Floats.
From Stdlib Require Import List String Ascii Bool Lia DecimalString DecimalN.
Import ListNotations.

Set Implicit Arguments.
Local Open Scope Z_scope.
Local Open Scope string_scope.

(** ** Exceptions *)

(** The exceptions the module raises or lets through.  Those raised by the
    program text carry their message; the interpreter's own are kept by class. *)
Inductive exn : Type :=
| ValueError (msg : string)
| NotImplementedError (msg : string)
| KeyError (key : string)
| TypeError
| ZeroDivisionError
| OverflowError.

(** The exception classes, for [except] clauses. *)
Inductive exn_class : Type :=
| E_Exception
| E_ArithmeticError | E_ZeroDivisionError | E_OverflowError
| E_LookupError | E_KeyError
| E_RuntimeError | E_NotImplementedError
| E_TypeError
| E_ValueError.

Definition exn_class_eqb (a b : exn_class) : bool :=
  match a, b with
  | E_Exception, E_Exception
  | E_ArithmeticError, E_ArithmeticError
  | E_ZeroDivisionError, E_ZeroDivisionError
  | E_OverflowError, E_OverflowError
  | E_LookupError, E_LookupError
  | E_KeyError, E_KeyError
  | E_RuntimeError, E_RuntimeError
  | E_NotImplementedError, E_NotImplementedError
  | E_TypeError, E_TypeError
  | E_ValueError, E_ValueError => true
  | _, _ => false
  end.

Definition type_of_exn (e : exn) : exn_class :=
  match e with
  | ValueError _ => E_ValueError
  | NotImplementedError _ => E_NotImplementedError
  | KeyError _ => E_KeyError
  | TypeError => E_TypeError
  | ZeroDivisionError => E_ZeroDivisionError
  | OverflowError => E_OverflowError
  end.

(** The method resolution order of each built-in exception class (up to
    [Exception]). *)
Definition exn_mro (c : exn_class) : list exn_class :=
  match c with
  | E_Exception => [E_Exception]
  | E_ArithmeticError => [E_ArithmeticError; E_Exception]
  | E_ZeroDivisionError => [E_ZeroDivisionError; E_ArithmeticError; E_Exception]
  | E_OverflowError => [E_OverflowError; E_ArithmeticError; E_Exception]
  | E_LookupError => [E_LookupError; E_Exception]
  | E_KeyError => [E_KeyError; E_LookupError; E_Exception]
  | E_RuntimeError => [E_RuntimeError; E_Exception]
  | E_NotImplementedError => [E_NotImplementedError; E_RuntimeError; E_Exception]
  | E_TypeError => [E_TypeError; E_Exception]
  | E_ValueError => [E_ValueError; E_Exception]
  end.

(** [isinstance(e, c)]. *)
Definition exn_isinstance (e : exn) (c : exn_class) : bool :=
  existsb (exn_class_eqb c) (exn_mro (type_of_exn e)).

(** [except (c1, ..., cn)]: does the clause catch [e]? *)
Definition except_catches (clause : list exn_class) (e : exn) : bool :=
  existsb (exn_isinstance e) clause.

(** ** Results: a value or a raised exception *)

Inductive res (A : Type) : Type :=
| Ok (a : A)
| Raise (e : exn).
Arguments Raise {A} e.

Definition bind {A B : Type} (m : res A) (k : A -> res B) : res B :=
  match m with
  | Ok a => k a
  | Raise e => Raise e
  end.

Notation "x <- m ;; k" := (bind m (fun x => k))
  (at level 61, m at next level, right associativity).

(** [try: body  except clause: handler]. *)
Definition try_except {A : Type} (body : res A) (clause : list exn_class)
    (handler : exn -> res A) : res A :=
  match body with
  | Ok a => Ok a
  | Raise e => if except_catches clause e then handler e else Raise e
  end.

Definition raises {A : Type} (m : res A) : Prop := exists e, m = Raise e.

(** ** The float interface *)

Class PyFloat (F : Type) : Type := {
  (** [x + y], [x * y] and [x / y] on floats; [f_div] is only called with a
      divisor that is not zero. *)
  f_add : F -> F -> F;
  f_mul : F -> F -> F;
  f_div : F -> F -> F;
  (** [x == 0.0] *)
  f_is_zero : F -> bool;
  (** A decimal literal of the source text. *)
  f_lit : Q -> F;
  (** [float(n)] for an [int] [n]; [None] is OverflowError. *)
  f_int : Z -> option F;
  (** [n / d] for two [int]s, [d] not zero; [None] is OverflowError. *)
  f_ratio : Z -> Z -> option F;
  (** [x ** 2.0]; [None] is OverflowError. *)
  f_pow2 : F -> option F
}.

(** *** IEEE 754 binary64 *)

Definition Z2SF (z : Z) : spec_float :=
  match z with
  | Z0 => S754_zero false
  | Zpos p => S754_finite false p 0
  | Zneg p => S754_finite true p 0
  end.

(** The double nearest to [n / d] (ties to even); infinity when out of range. *)
Definition b64_ratio (n d : Z) : float :=
  SF2Prim (SFdiv prec emax (Z2SF n) (Z2SF d)).

Definition b64_finite (x : float) : option float :=
  if PrimFloat.is_infinity x then None else Some x.

(** CPython's [float_pow] calls C's [pow] and turns a result that overflowed
    from a finite operand into OverflowError.  At the exponent 2.0 we take
    [pow] to be the correctly rounded square. *)
Definition b64_pow2 (x : float) : option float :=
  let r := PrimFloat.mul x x in
  if PrimFloat.is_infinity r && negb (PrimFloat.is_infinity x) then None
  else Some r.

#[export] Instance binary64 : PyFloat float := {
  f_add := PrimFloat.add;
  f_mul := PrimFloat.mul;
  f_div := PrimFloat.div;
  f_is_zero := fun x => PrimFloat.eqb x PrimFloat.zero;
  f_lit := fun q => b64_ratio (Qnum q) (Zpos (Qden q));
  f_int := fun n => b64_finite (b64_ratio n 1);
  f_ratio := fun n d => b64_finite (b64_ratio n d);
  f_pow2 := b64_pow2
}.

(** *** Exact rational arithmetic *)

#[export] Instance exact : PyFloat Qc := {
  f_add := Qcplus;
  f_mul := Qcmult;
  f_div := Qcdiv;
  f_is_zero := fun x => Qc_eq_bool x (Q2Qc 0);
  f_lit := Q2Qc;
  f_int := fun n => Some (Q2Qc (inject_Z n));
  f_ratio := fun n d => Some (Qcdiv (Q2Qc (inject_Z n)) (Q2Qc (inject_Z d)));
  f_pow2 := fun x => Some (Qcmult x x)
}.

(** ** Python values and operators *)

Section Model.

Context {F : Type} `{PyFloat F}.

Inductive pyval : Type :=
| PInt (n : Z)
| PFloat (x : F)
| PBool (b : bool)
| PStr (s : string).

(** [isinstance(x, (float, int))]; [bool] is a subclass of [int]. *)
Definition isinstance_float_int (x : pyval) : bool :=
  match x with
  | PInt _ | PFloat _ | PBool _ => true
  | PStr _ => false
  end.

(** The integer an [int] (or a [bool], which is one) stands for. *)
Definition as_int (v : pyval) : option Z :=
  match v with
  | PInt n => Some n
  | PBool b => Some (Z.b2z b)
  | _ => None
  end.

(** The interpreter's conversion of an operand of a float operation. *)
Definition to_float (v : pyval) : res F :=
  match v with
  | PFloat x => Ok x
  | PStr _ => Raise TypeError
  | PInt n =>
      match f_int n with Some x => Ok x | None => Raise OverflowError end
  | PBool b =>
      match f_int (Z.b2z b) with Some x => Ok x | None => Raise OverflowError end
  end.

(** [s * n] for a string: [n] copies of [s], none when [n <= 0]. *)
Definition str_repeat (s : string) (n : Z) : string :=
  String.concat "" (List.repeat s (Z.to_nat n)).

(** [a * b] *)
Definition py_mul (a b : pyval) : res pyval :=
  match a, b with
  | PStr s, PStr _ => Raise TypeError
  | PStr _, PFloat _ | PFloat _, PStr _ => Raise TypeError
  | PStr s, (PInt _ | PBool _) =>
      match as_int b with
      | Some n => Ok (PStr (str_repeat s n))
      | None => Raise TypeError
      end
  | (PInt _ | PBool _), PStr s =>
      match as_int a with
      | Some n => Ok (PStr (str_repeat s n))
      | None => Raise TypeError
      end
  | PFloat _, _ | _, PFloat _ =>
      x <- to_float a ;; y <- to_float b ;; Ok (PFloat (f_mul x y))
  | _, _ =>
      match as_int a, as_int b with
      | Some m, Some n => Ok (PInt (m * n))
      | _, _ => Raise TypeError
      end
  end.

(** [a + b] *)
Definition py_add (a b : pyval) : res pyval :=
  match a, b with
  | PStr s, PStr t => Ok (PStr (s ++ t))
  | PStr _, _ | _, PStr _ => Raise TypeError
  | PFloat _, _ | _, PFloat _ =>
      x <- to_float a ;; y <- to_float b ;; Ok (PFloat (f_add x y))
  | _, _ =>
      match as_int a, as_int b with
      | Some m, Some n => Ok (PInt (m + n))
      | _, _ => Raise TypeError
      end
  end.

(** [a / b], true division. *)
Definition py_truediv (a b : pyval) : res pyval :=
  match a, b with
  | PStr _, _ | _, PStr _ => Raise TypeError
  | PFloat _, _ | _, PFloat _ =>
      x <- to_float a ;; y <- to_float b ;;
      if f_is_zero y then Raise ZeroDivisionError
      else Ok (PFloat (f_div x y))
  | _, _ =>
      match as_int a, as_int b with
      | Some m, Some n =>
          if (n =? 0)%Z then Raise ZeroDivisionError
          else match f_ratio m n with
               | Some q => Ok (PFloat q)
               | None => Raise OverflowError
               end
      | _, _ => Raise TypeError
      end
  end.

(** [a ** 2.0], the one power the module takes
    ([MEAN_SPEED_POW_VALUE = 2.0]). *)
Definition py_pow2 (a : pyval) : res pyval :=
  x <- to_float a ;;
  match f_pow2 x with
  | Some r => Ok (PFloat r)
  | None => Raise OverflowError
  end.

(** Operators on computations: the left operand is evaluated first, then the
    right one, then the operation is applied. *)
Definition lift2 (op : pyval -> pyval -> res pyval) (a b : res pyval)
    : res pyval :=
  x <- a ;; y <- b ;; op x y.

(** [a ** self.MEAN_SPEED_POW_VALUE] *)
Definition pow_MEAN_SPEED_POW_VALUE (a : res pyval) : res pyval :=
  bind a py_pow2.

Declare Scope py_scope.
Delimit Scope py_scope with py.
Notation "a * b" := (lift2 py_mul a b) : py_scope.
Notation "a / b" := (lift2 py_truediv a b) : py_scope.
Notation "a + b" := (lift2 py_add a b) : py_scope.
(** A value read from an attribute, and a float constant of a class. *)
Notation "$ v" := (Ok v) (at level 9, v at level 9) : py_scope.
Notation "# c" := (Ok (PFloat c)) (at level 9, c at level 9) : py_scope.

(** ** The classes *)

(** Class constants of [Training]. *)
Definition M_IN_KM : F := f_lit 1000.0.
Definition MINUTES_IN_HOUR : F := f_lit 60.0.

(** An instance.  [Subclass name] is an instance of a class [name] derived
    from [Training] that overrides nothing ([class name(Training): pass]). *)
Inductive training : Type :=
| Training (action duration weight : pyval)
| Running (action duration weight : pyval)
| SportsWalking (action duration weight height : pyval)
| Swimming (action duration weight length_pool count_pool : pyval)
| Subclass (name : string) (action duration weight : pyval).

Definition action (self : training) : pyval :=
  match self with
  | Training a _ _ | Running a _ _ | SportsWalking a _ _ _
  | Swimming a _ _ _ _ | Subclass _ a _ _ => a
  end.

Definition duration (self : training) : pyval :=
  match self with
  | Training _ d _ | Running _ d _ | SportsWalking _ d _ _
  | Swimming _ d _ _ _ | Subclass _ _ d _ => d
  end.

Definition weight (self : training) : pyval :=
  match self with
  | Training _ _ w | Running _ _ w | SportsWalking _ _ w _
  | Swimming _ _ w _ _ | Subclass _ _ _ w => w
  end.

(** [type(self).__name__] *)
Definition type_name (self : training) : string :=
  match self with
  | Training _ _ _ => "Training"
  | Running _ _ _ => "Running"
  | SportsWalking _ _ _ _ => "SportsWalking"
  | Swimming _ _ _ _ _ => "Swimming"
  | Subclass name _ _ _ => name
  end.

(** [self.LEN_STEP]: 0.65 in [Training], overridden to 1.38 in [Swimming]. *)
Definition LEN_STEP (self : training) : F :=
  match self with
  | Swimming _ _ _ _ _ => f_lit 1.38
  | _ => f_lit 0.65
  end.

Local Open Scope py_scope.

(** [Training.get_distance] *)
Definition get_distance (self : training) : res pyval :=
  $(action self) * #(LEN_STEP self) / #M_IN_KM.

(** [get_mean_speed]: [Training]'s, overridden in [Swimming]. *)
Definition get_mean_speed (self : training) : res pyval :=
  match self with
  | Swimming _ d _ length_pool count_pool =>
      $length_pool * $count_pool / #M_IN_KM / $d
  | _ => get_distance self / $(duration self)
  end.

(** Class constants of [Running]. *)
Definition Running_CALORIES_MEAN_SPEED_MULTIPLIER : F := f_lit 18.0.
Definition Running_CALORIES_MEAN_SPEED_SHIFT : F := f_lit 1.79.

(** Class constants of [SportsWalking]. *)
Definition Walking_CALORIES_MEAN_SPEED_MULTIPLIER : F := f_lit 0.035.
Definition Walking_CALORIES_MEAN_SPEED_SHIFT : F := f_lit 0.029.
Definition KMH_IN_MSEC : F := f_lit 0.278.
Definition HEIGHT_DIV : F := f_lit 100.0.

(** Class constants of [Swimming]. *)
Definition Swimming_CALORIES_MEAN_SPEED_MULTIPLIER : F := f_lit 1.1.
Definition Swimming_CALORIES_MEAN_SPEED_SHIFT : F := f_lit 2.0.

(** [get_spent_calories]: [Training]'s raises, each variant overrides it. *)
Definition get_spent_calories (self : training) : res pyval :=
  match self with
  | Running _ d w =>
      (#Running_CALORIES_MEAN_SPEED_MULTIPLIER * get_mean_speed self
       + #Running_CALORIES_MEAN_SPEED_SHIFT)
      * $w / #M_IN_KM * $d * #MINUTES_IN_HOUR
  | SportsWalking _ d w height =>
      mean_speed_ms <- get_mean_speed self * #KMH_IN_MSEC ;;
      height_in_meters <- $height / #HEIGHT_DIV ;;
      (#Walking_CALORIES_MEAN_SPEED_MULTIPLIER * $w
       + (pow_MEAN_SPEED_POW_VALUE $mean_speed_ms / $height_in_meters)
         * #Walking_CALORIES_MEAN_SPEED_SHIFT * $w)
      * $d * #MINUTES_IN_HOUR
  | Swimming _ d w _ _ =>
      (get_mean_speed self + #Swimming_CALORIES_MEAN_SPEED_MULTIPLIER)
      * #Swimming_CALORIES_MEAN_SPEED_SHIFT * $w * $d
  | _ =>
      Raise (NotImplementedError
               ("Определите калории в " ++ type_name self ++ "."))
  end.

(** [InfoMessage], without its message template. *)
Record InfoMessage : Type := {
  training_type : string;
  info_duration : pyval;
  info_distance : pyval;
  info_speed : pyval;
  info_calories : pyval
}.

(** [Training.show_training_info]: the arguments are evaluated in the order
    written. *)
Definition show_training_info (self : training) : res InfoMessage :=
  distance <- get_distance self ;;
  speed <- get_mean_speed self ;;
  calories <- get_spent_calories self ;;
  Ok {| training_type := type_name self;
        info_duration := duration self;
        info_distance := distance;
        info_speed := speed;
        info_calories := calories |}.

(** ** The factory *)

(** The classes the factory can build. *)
Inductive workout_class : Type := cSwimming | cRunning | cSportsWalking.

(** A dict literal with string keys, and [d[key]]. *)
Fixpoint dict_get {V : Type} (d : list (string * V)) (key : string) : res V :=
  match d with
  | [] => Raise (KeyError key)
  | (k, v) :: rest => if String.eqb k key then Ok v else dict_get rest key
  end.

Definition training_type_dict : list (string * workout_class) :=
  [("SWM", cSwimming); ("RUN", cRunning); ("WLK", cSportsWalking)].

Definition data_len : list (string * nat) :=
  [("SWM", 5%nat); ("RUN", 3%nat); ("WLK", 4%nat)].

(** Calling a class on the unpacked [data]: the arguments are bound by position to the parameters of
    [__init__]; a wrong number of them is a TypeError. *)
Definition call_class (cls : workout_class) (data : list pyval) : res training :=
  match cls, data with
  | cRunning, [a; d; w] => Ok (Running a d w)
  | cSportsWalking, [a; d; w; height] => Ok (SportsWalking a d w height)
  | cSwimming, [a; d; w; length_pool; count_pool] =>
      Ok (Swimming a d w length_pool count_pool)
  | _, _ => Raise TypeError
  end.

(** [read_package] *)
Definition read_package (workout_type : string) (data : list pyval)
    : res training :=
  try_except
    (expected <- dict_get data_len workout_type ;;
     if negb (Nat.eqb (List.length data) expected) then
       Raise (ValueError
                ("Неправильное количествоэлементов для " ++ workout_type))
     else if negb (forallb isinstance_float_int data) then
       Raise (ValueError
                "В массиве присутствуют значения, отличные от целых чисел")
     else
       cls <- dict_get training_type_dict workout_type ;;
       call_class cls data)
    [E_KeyError]
    (fun _ => Raise (ValueError "Неизвестная тренировка")).

End Model.

Arguments pyval F : clear implicits.
Arguments training F : clear implicits.
Arguments InfoMessage F : clear implicits.

(** ** What the specification says of the factory *)

(** The workout-type codes. *)
Definition known_code (code : string) : Prop :=
  code = "SWM" \/ code = "RUN" \/ code = "WLK".

(** The arity a code requires: 3 for running, 4 for walking, 5 for swimming. *)
Definition required_arity (code : string) : option nat :=
  if String.eqb code "RUN" then Some 3%nat
  else if String.eqb code "WLK" then Some 4%nat
  else if String.eqb code "SWM" then Some 5%nat
  else None.

(** The variant a code is mapped to. *)
Definition variant_of_code (code : string) : option workout_class :=
  if String.eqb code "RUN" then Some cRunning
  else if String.eqb code "WLK" then Some cSportsWalking
  else if String.eqb code "SWM" then Some cSwimming
  else None.

Section Fields.

Context {F : Type} `{PyFloat F}.

(** The constructor fields of an instance, in the order of [__init__]:
    action, duration, weight, then height for walking, or the pool length and
    the lap count for swimming. *)
Definition fields (self : training F) : list (pyval F) :=
  match self with
  | Training a d w | Running a d w | Subclass _ a d w => [a; d; w]
  | SportsWalking a d w height => [a; d; w; height]
  | Swimming a d w length_pool count_pool => [a; d; w; length_pool; count_pool]
  end.

(** Is [self] an instance of exactly the class [cls]? *)
Definition instance_of (self : training F) (cls : workout_class) : bool :=
  match self, cls with
  | Running _ _ _, cRunning
  | SportsWalking _ _ _ _, cSportsWalking
  | Swimming _ _ _ _ _, cSwimming => true
  | _, _ => false
  end.

(** Does the class of [self] define its own [get_spent_calories]? *)
Definition overrides_get_spent_calories (self : training F) : bool :=
  match self with
  | Running _ _ _ | SportsWalking _ _ _ _ | Swimming _ _ _ _ _ => true
  | Training _ _ _ | Subclass _ _ _ _ => false
  end.

(** [v == 0] *)
Definition py_is_zero (v : pyval F) : bool :=
  match v with
  | PInt n => Z.eqb n 0
  | PFloat x => f_is_zero x
  | PBool b => negb b
  | PStr _ => false
  end.

Definition is_bool (v : pyval F) : Prop := exists b, v = PBool b.
Definition is_int_or_float (v : pyval F) : Prop :=
  (exists n, v = PInt n) \/ (exists x, v = PFloat x).

End Fields.

(** ** The factory: validation and construction *)

Section Factory.

Context {F : Type} `{PyFloat F}.

Implicit Types (data : list (pyval F)) (code : string).

Lemma known_code_dec code : {known_code code} + {~ known_code code}.
Proof.
  unfold known_code.
  destruct (string_dec code "SWM"); [now left; left|].
  destruct (string_dec code "RUN"); [now left; right; left|].
  destruct (string_dec code "WLK"); [now left; right; right|].
  right; tauto.
Qed.

Lemma required_arity_known code n :
  required_arity code = Some n -> known_code code.
Proof.
  unfold required_arity, known_code.
  destruct (String.eqb_spec code "RUN"); [tauto|].
  destruct (String.eqb_spec code "WLK"); [tauto|].
  destruct (String.eqb_spec code "SWM"); [tauto|discriminate].
Qed.

Lemma known_code_arity code :
  known_code code -> exists n, required_arity code = Some n.
Proof. intros [-> | [-> | ->]]; eexists; reflexivity. Qed.

(** An unknown code: the KeyError of the first lookup becomes a ValueError. *)
Lemma read_package_unknown code data :
  ~ known_code code ->
  read_package code data = Raise (ValueError "Неизвестная тренировка").
Proof.
  intros Hk. unfold read_package, data_len, dict_get.
  destruct (String.eqb_spec "SWM" code) as [<- | _];
    [exfalso; apply Hk; now left|].
  destruct (String.eqb_spec "RUN" code) as [<- | _];
    [exfalso; apply Hk; now right; left|].
  destruct (String.eqb_spec "WLK" code) as [<- | _];
    [exfalso; apply Hk; now right; right|].
  reflexivity.
Qed.

(** The three known codes, one goal each, with the arity computed. *)
Ltac each_code Hn :=
  let Hk := fresh "Hk" in
  pose proof (required_arity_known _ Hn) as Hk;
  destruct Hk as [-> | [-> | ->]];
  cbv in Hn; injection Hn as <-.

(** A known code with the wrong number of values. *)
Lemma read_package_wrong_len code n data :
  required_arity code = Some n ->
  List.length data <> n ->
  read_package code data =
    Raise (ValueError ("Неправильное количествоэлементов для " ++ code)).
Proof.
  intros Hn Hlen. apply Nat.eqb_neq in Hlen.
  each_code Hn; unfold read_package; cbn [dict_get data_len String.eqb Ascii.eqb Bool.eqb bind];
    rewrite Hlen; reflexivity.
Qed.

(** A known code, the right number of values, one of them not a number. *)
Lemma read_package_not_numeric code n data :
  required_arity code = Some n ->
  List.length data = n ->
  forallb isinstance_float_int data = false ->
  read_package code data =
    Raise (ValueError
             "В массиве присутствуют значения, отличные от целых чисел").
Proof.
  intros Hn Hlen Hnum. apply Nat.eqb_eq in Hlen.
  each_code Hn; unfold read_package; cbn [dict_get data_len String.eqb Ascii.eqb Bool.eqb bind];
    rewrite Hlen, Hnum; reflexivity.
Qed.

(** A known code with valid data: the variant is built, its fields bound by
    position. *)
Lemma read_package_valid code n data :
  required_arity code = Some n ->
  List.length data = n ->
  forallb isinstance_float_int data = true ->
  exists t, read_package code data = Ok t
            /\ fields t = data
            /\ exists cls, variant_of_code code = Some cls
                           /\ instance_of t cls = true.
Proof.
  intros Hn Hlen Hnum.
  each_code Hn;
    repeat (destruct data as [| ? data]; try discriminate Hlen);
    unfold read_package;
    cbn [dict_get data_len String.eqb Ascii.eqb Bool.eqb bind List.length
         Nat.eqb negb];
    rewrite Hnum; eexists;
    (split; [reflexivity | split; [reflexivity |]]);
    eexists; split; reflexivity.
Qed.

Lemma forallb_false_Exists (A : Type) (f : A -> bool) (l : list A) :
  forallb f l = false <-> Exists (fun x => f x = false) l.
Proof.
  induction l as [| a l IH]; cbn [forallb].
  - split; [discriminate | intros E; inversion E].
  - rewrite andb_false_iff, Exists_cons, IH. tauto.
Qed.

Lemma forallb_true_Forall (A : Type) (f : A -> bool) (l : list A) :
  forallb f l = true <-> Forall (fun x => f x = true) l.
Proof.
  rewrite forallb_forall, Forall_forall. tauto.
Qed.

(** The three ways the factory fails, and the one way it succeeds. *)
Inductive outcome code data : res (training F) -> Prop :=
| out_unknown :
    ~ known_code code ->
    outcome code data (Raise (ValueError "Неизвестная тренировка"))
| out_wrong_len n :
    required_arity code = Some n -> List.length data <> n ->
    outcome code data
      (Raise (ValueError ("Неправильное количествоэлементов для " ++ code)))
| out_not_numeric n :
    required_arity code = Some n -> List.length data = n ->
    forallb isinstance_float_int data = false ->
    outcome code data
      (Raise (ValueError
                "В массиве присутствуют значения, отличные от целых чисел"))
| out_built n t :
    required_arity code = Some n -> List.length data = n ->
    forallb isinstance_float_int data = true ->
    fields t = data ->
    (exists cls, variant_of_code code = Some cls /\ instance_of t cls = true) ->
    outcome code data (Ok t).

Lemma read_package_outcome code data :
  outcome code data (read_package code data).
Proof.
  destruct (known_code_dec code) as [Hk | Hk].
  - destruct (known_code_arity Hk) as [n Hn].
    destruct (Nat.eq_dec (List.length data) n) as [Hlen | Hlen].
    + destruct (forallb isinstance_float_int data) eqn:Hnum.
      * destruct (read_package_valid _ _ Hn Hlen Hnum) as (t & -> & Hf & Hv).
        now apply out_built with n.
      * rewrite (read_package_not_numeric _ _ Hn Hlen Hnum).
        now apply out_not_numeric with n.
    + rewrite (read_package_wrong_len _ _ Hn Hlen).
      now apply out_wrong_len with n.
  - rewrite (read_package_unknown _ Hk). now apply out_unknown.
Qed.

(** Whatever the factory raises is a ValueError. *)
Lemma read_package_raises_ValueError code data e :
  read_package code data = Raise e -> exists msg, e = ValueError msg.
Proof.
  intros E. destruct (read_package_outcome code data); try discriminate E;
    injection E as <-; eexists; reflexivity.
Qed.

(** C1: [read_package] raises if and only if the code is unknown, or the
    length of the data is not the arity the code requires, or some element is
    not a number; whatever it raises is a ValueError, which an
    [except ValueError] clause catches; an unknown code fails whatever the
    data. *)
Theorem read_package_raises_iff code data :
  (raises (read_package code data) <->
     ~ known_code code
     \/ (exists n, required_arity code = Some n /\ List.length data <> n)
     \/ Exists (fun x => isinstance_float_int x = false) data)
  /\ (forall e, read_package code data = Raise e ->
        (exists msg, e = ValueError msg)
        /\ except_catches [E_ValueError] e = true)
  /\ (~ known_code code ->
      forall data',
        read_package code data' = Raise (ValueError "Неизвестная тренировка")).
Proof.
  split; [| split].
  - split.
    + intros [e E].
      destruct (read_package_outcome code data) as [Hk | n Hn Hl | n Hn Hl Hnum |];
        try discriminate E.
      * now left.
      * right; left. now exists n.
      * right; right. now apply forallb_false_Exists.
    + intros Hc.
      destruct (read_package_outcome code data) as [| | | n t Hn Hl Hnum _ _];
        try (eexists; reflexivity).
      exfalso. destruct Hc as [Hk | [(m & Hm & Hlen) | Hex]].
      * apply Hk. eapply required_arity_known; eassumption.
      * rewrite Hn in Hm. injection Hm as ->. contradiction.
      * apply forallb_false_Exists in Hex. congruence.
  - intros e E. destruct (read_package_raises_ValueError _ _ E) as [msg ->].
    split; [now exists msg | reflexivity].
  - intros Hk data'. now apply read_package_unknown.
Qed.

(** C6: for a known code, data of the required arity and numeric elements,
    [read_package] returns an instance of the variant mapped to the code,
    whose constructor fields are the data in order. *)
Theorem read_package_builds_variant code data n :
  required_arity code = Some n ->
  List.length data = n ->
  Forall (fun x => isinstance_float_int x = true) data ->
  exists t, read_package code data = Ok t
            /\ (exists cls, variant_of_code code = Some cls
                            /\ instance_of t cls = true)
            /\ fields t = data.
Proof.
  intros Hn Hlen Hnum. apply forallb_true_Forall in Hnum.
  destruct (read_package_valid _ _ Hn Hlen Hnum) as (t & E & Hf & Hv).
  now exists t.
Qed.

(** A [bool] operand is the [int] 1 or 0 to every operator. *)
Lemma bool_as_number (b : bool) (v : pyval F) :
  to_float (PBool b : pyval F) = to_float (PInt (Z.b2z b))
  /\ py_mul (PBool b) v = py_mul (PInt (Z.b2z b)) v
  /\ py_mul v (PBool b) = py_mul v (PInt (Z.b2z b))
  /\ py_add (PBool b) v = py_add (PInt (Z.b2z b)) v
  /\ py_add v (PBool b) = py_add v (PInt (Z.b2z b))
  /\ py_truediv (PBool b) v = py_truediv (PInt (Z.b2z b)) v
  /\ py_truediv v (PBool b) = py_truediv v (PInt (Z.b2z b)).
Proof. repeat split; destruct v; reflexivity. Qed.

Lemma accepted_is_instance (v : pyval F) :
  is_bool v \/ is_int_or_float v -> isinstance_float_int v = true.
Proof. intros [[b ->] | [[n ->] | [x ->]]]; reflexivity. Qed.

(** C8: the numeric check accepts [True] and [False]: with elements that are
    bools, ints or floats, validation passes, the variant is built with the
    bools stored in its fields, and the operators take them as 1 and 0. *)
Theorem read_package_accepts_bool code data n :
  required_arity code = Some n ->
  List.length data = n ->
  Forall (fun x => is_bool x \/ is_int_or_float x) data ->
  (exists t, read_package code data = Ok t /\ fields t = data)
  /\ (forall b, In (PBool b) data ->
        isinstance_float_int (PBool b : pyval F) = true
        /\ to_float (PBool b : pyval F) = to_float (PInt (Z.b2z b))
        /\ forall v, py_mul (PBool b) v = py_mul (PInt (Z.b2z b)) v
                     /\ py_mul v (PBool b) = py_mul v (PInt (Z.b2z b))
                     /\ py_truediv (PBool b) v = py_truediv (PInt (Z.b2z b)) v
                     /\ py_truediv v (PBool b) = py_truediv v (PInt (Z.b2z b))).
Proof.
  intros Hn Hlen Hall. split.
  - assert (Hnum : forallb isinstance_float_int data = true).
    { apply forallb_true_Forall. eapply Forall_impl; [| exact Hall].
      intros v. apply accepted_is_instance. }
    destruct (read_package_valid _ _ Hn Hlen Hnum) as (t & E & Hf & _).
    now exists t.
  - intros b _. split; [reflexivity |]. split; [reflexivity |].
    intros v. pose proof (bool_as_number b v). tauto.
Qed.

(** C7: [get_spent_calories] on an instance whose class does not override it
    raises NotImplementedError with a message that names the class of the
    instance; that error is no ValueError, so neither [except ValueError] nor
    the [except (ValueError, TypeError)] of the driver catches it, while
    everything [read_package] raises is caught by [except ValueError]. *)
Theorem get_spent_calories_not_implemented (self : training F) :
  overrides_get_spent_calories self = false ->
  get_spent_calories self =
    Raise (NotImplementedError
             ("Определите калории в " ++ type_name self ++ "."))
  /\ (forall msg,
        exn_isinstance (NotImplementedError msg) E_NotImplementedError = true
        /\ exn_isinstance (NotImplementedError msg) E_ValueError = false
        /\ except_catches [E_ValueError] (NotImplementedError msg) = false
        /\ except_catches [E_ValueError; E_TypeError]
             (NotImplementedError msg) = false)
  /\ (forall code data e,
        read_package code data = Raise e ->
        except_catches [E_ValueError] e = true
        /\ exn_isinstance e E_NotImplementedError = false).
Proof.
  intros Hov. split; [| split].
  - destruct self; try discriminate Hov; reflexivity.
  - intros msg. repeat split.
  - intros code data e E.
    destruct (read_package_raises_ValueError _ _ E) as [msg ->].
    split; reflexivity.
Qed.

End Factory.

(** ** The formulas *)

(** The formulas of the specification, over the float operations. *)
Section SpecFormulas.

Context {F : Type} `{PyFloat F}.

Declare Scope f_scope.
Delimit Scope f_scope with f.
Local Infix "+" := f_add : f_scope.
Local Infix "*" := f_mul : f_scope.
Local Infix "/" := f_div : f_scope.
Local Open Scope f_scope.

(** [action_count * step_length / meters_per_km] *)
Definition distance_formula (action_count step_length : F) : F :=
  action_count * step_length / f_lit 1000.0.

(** [distance / duration_hours] *)
Definition mean_speed_formula (distance duration_hours : F) : F :=
  distance / duration_hours.

(** [(speed_multiplier * mean_speed_kmh + speed_shift) * weight_kg / 1000.0
     * duration_hours * 60.0] with the multiplier 18.0 and the shift 1.79. *)
Definition running_calories_formula (mean_speed_kmh weight_kg duration_hours : F)
    : F :=
  (f_lit 18.0 * mean_speed_kmh + f_lit 1.79) * weight_kg / f_lit 1000.0
  * duration_hours * f_lit 60.0.

End SpecFormulas.

Section Formulas.

Context {F : Type} `{PyFloat F}.

Implicit Types (v : pyval F) (c x y : F) (self : training F).

Lemma py_mul_float_l c v y :
  to_float v = Ok y -> py_mul (PFloat c) v = Ok (PFloat (f_mul c y)).
Proof.
  intros E. destruct v; try discriminate E; unfold py_mul;
    rewrite E; reflexivity.
Qed.

Lemma py_mul_float_r v c x :
  to_float v = Ok x -> py_mul v (PFloat c) = Ok (PFloat (f_mul x c)).
Proof.
  intros E. destruct v; try discriminate E; unfold py_mul;
    rewrite E; reflexivity.
Qed.

Lemma py_add_float_l c v y :
  to_float v = Ok y -> py_add (PFloat c) v = Ok (PFloat (f_add c y)).
Proof.
  intros E. destruct v; try discriminate E; unfold py_add;
    rewrite E; reflexivity.
Qed.

Lemma py_add_float_r v c x :
  to_float v = Ok x -> py_add v (PFloat c) = Ok (PFloat (f_add x c)).
Proof.
  intros E. destruct v; try discriminate E; unfold py_add;
    rewrite E; reflexivity.
Qed.

Lemma py_truediv_float_l c v y :
  to_float v = Ok y ->
  py_truediv (PFloat c) v =
    if f_is_zero y then Raise ZeroDivisionError else Ok (PFloat (f_div c y)).
Proof.
  intros E. destruct v; try discriminate E; unfold py_truediv;
    rewrite E; reflexivity.
Qed.

Lemma py_truediv_float_r v c x :
  to_float v = Ok x ->
  py_truediv v (PFloat c) =
    if f_is_zero c then Raise ZeroDivisionError else Ok (PFloat (f_div x c)).
Proof.
  intros E. destruct v; try discriminate E; unfold py_truediv;
    rewrite E; reflexivity.
Qed.

(** A number converts to a float or is too large for one. *)
Lemma to_float_number v :
  isinstance_float_int v = true ->
  (exists x, to_float v = Ok x) \/ to_float v = Raise OverflowError.
Proof.
  destruct v; try discriminate; intros _; unfold to_float;
    try (left; eexists; reflexivity);
    match goal with |- context [f_int ?n] => destruct (f_int n) end;
    (left; eexists; reflexivity) || (right; reflexivity).
Qed.

Lemma py_mul_float_r_raise v c e :
  to_float v = Raise e -> py_mul v (PFloat c) = Raise e.
Proof.
  intros E. destruct v; try discriminate E; unfold py_mul;
    try rewrite E; try reflexivity.
  now injection E as <-.
Qed.

Lemma py_truediv_float_l_raise c v e :
  to_float v = Raise e -> py_truediv (PFloat c) v = Raise e.
Proof.
  intros E. destruct v; try discriminate E; unfold py_truediv;
    try rewrite E; try reflexivity.
  now injection E as <-.
Qed.

Lemma py_truediv_float_r_raise v c e :
  to_float v = Raise e -> py_truediv v (PFloat c) = Raise e.
Proof.
  intros E. destruct v; try discriminate E; unfold py_truediv;
    try rewrite E; try reflexivity.
  now injection E as <-.
Qed.

(** The product of two numbers is a number, unless an [int] operand that
    meets a float is too large for one. *)
Lemma py_mul_numbers v1 v2 :
  isinstance_float_int v1 = true ->
  isinstance_float_int v2 = true ->
  (exists p, py_mul v1 v2 = Ok p /\ isinstance_float_int p = true)
  \/ py_mul v1 v2 = Raise OverflowError.
Proof.
  destruct v1, v2; try discriminate; intros _ _; unfold py_mul, to_float;
    cbn [bind as_int];
    repeat match goal with
           | |- context [f_int ?n] => destruct (f_int n); cbn [bind]
           end;
    (left; eexists; split; reflexivity) || (right; reflexivity).
Qed.

Definition is_swimming self : bool :=
  match self with Swimming _ _ _ _ _ => true | _ => false end.

(** What [get_mean_speed] divides by the duration: the distance, or for
    swimming the pool length times the lap count, in kilometres. *)
Definition mean_speed_numerator self : res (pyval F) :=
  match self with
  | Swimming _ _ _ length_pool count_pool =>
      lift2 py_truediv (lift2 py_mul (Ok length_pool) (Ok count_pool))
            (Ok (PFloat M_IN_KM))
  | _ => get_distance self
  end.

Lemma get_mean_speed_numerator self :
  get_mean_speed self =
    lift2 py_truediv (mean_speed_numerator self) (Ok (duration self)).
Proof. destruct self; reflexivity. Qed.

(** Except for swimming, the mean speed is the distance over the duration. *)
Lemma get_mean_speed_default self :
  is_swimming self = false ->
  get_mean_speed self = lift2 py_truediv (get_distance self) (Ok (duration self)).
Proof. destruct self; try discriminate; reflexivity. Qed.

(** The calorie formula of each variant starts by calling [get_mean_speed]. *)
Lemma get_spent_calories_raise self e :
  overrides_get_spent_calories self = true ->
  get_mean_speed self = Raise e ->
  get_spent_calories self = Raise e.
Proof.
  intros Hov E. destruct self; try discriminate Hov;
    unfold get_spent_calories, lift2; cbn [bind]; rewrite E; reflexivity.
Qed.

Section NonZeroKm.

(** 1000.0 is not zero. *)
Hypothesis M_IN_KM_nonzero : f_is_zero (M_IN_KM : F) = false.

Lemma get_distance_eval self fa :
  to_float (action self) = Ok fa ->
  get_distance self = Ok (PFloat (distance_formula fa (LEN_STEP self))).
Proof.
  intros Ea. unfold get_distance, lift2. cbn [bind].
  rewrite (py_mul_float_r _ _ Ea). cbn [bind].
  rewrite (py_truediv_float_l _ (PFloat M_IN_KM) eq_refl), M_IN_KM_nonzero.
  reflexivity.
Qed.

Lemma get_distance_raise self e :
  to_float (action self) = Raise e -> get_distance self = Raise e.
Proof.
  intros Ea. unfold get_distance, lift2. cbn [bind].
  rewrite (py_mul_float_r_raise _ _ Ea). reflexivity.
Qed.

Lemma get_mean_speed_eval self fa fd :
  is_swimming self = false ->
  to_float (action self) = Ok fa ->
  to_float (duration self) = Ok fd ->
  f_is_zero fd = false ->
  get_mean_speed self =
    Ok (PFloat (mean_speed_formula (distance_formula fa (LEN_STEP self)) fd)).
Proof.
  intros Hs Ea Ed Hz. rewrite (get_mean_speed_default _ Hs).
  rewrite (get_distance_eval _ Ea). unfold lift2. cbn [bind].
  rewrite (py_truediv_float_l _ _ Ed), Hz. reflexivity.
Qed.

(** The numerator of the mean speed of an instance with numeric fields is a
    float, unless an [int] is too large to become one. *)
Lemma mean_speed_numerator_number self :
  Forall (fun v => isinstance_float_int v = true) (fields self) ->
  (exists x, mean_speed_numerator self = Ok (PFloat x))
  \/ mean_speed_numerator self = Raise OverflowError.
Proof.
  intros Hnum. rewrite Forall_forall in Hnum.
  assert (Hact : isinstance_float_int (action self) = true).
  { apply Hnum. destruct self; cbn; tauto. }
  destruct self as [a d w | a d w | a d w h | a d w lp cp | nm a d w];
    cbn [mean_speed_numerator];
    try (destruct (to_float_number _ Hact) as [[x Ex] | Ex];
         [ left; eexists; apply (get_distance_eval _ Ex)
         | right; apply (get_distance_raise _ Ex) ]).
  assert (Hlp : isinstance_float_int lp = true) by (apply Hnum; cbn; tauto).
  assert (Hcp : isinstance_float_int cp = true) by (apply Hnum; cbn; tauto).
  unfold lift2. cbn [bind].
  destruct (py_mul_numbers _ _ Hlp Hcp) as [(p & -> & Hp) | ->]; cbn [bind].
  - destruct (to_float_number _ Hp) as [[x Ex] | Ex].
    + left. rewrite (py_truediv_float_r _ _ Ex), M_IN_KM_nonzero.
      eexists; reflexivity.
    + right. apply (py_truediv_float_r_raise _ _ Ex).
  - now right.
Qed.

(** With a duration that is zero, [get_mean_speed] computes its numerator and
    then divides by zero. *)
Lemma get_mean_speed_zero_duration self fd :
  Forall (fun v => isinstance_float_int v = true) (fields self) ->
  to_float (duration self) = Ok fd ->
  f_is_zero fd = true ->
  get_mean_speed self =
    bind (mean_speed_numerator self) (fun _ => Raise ZeroDivisionError).
Proof.
  intros Hnum Ed Hz. rewrite get_mean_speed_numerator.
  destruct (mean_speed_numerator_number _ Hnum) as [[x ->] | ->].
  - unfold lift2. cbn [bind]. rewrite (py_truediv_float_l _ _ Ed), Hz.
    reflexivity.
  - reflexivity.
Qed.

(** The calories of a run, by the formula of the specification. *)
Lemma running_calories_eval (a d w : pyval F) fa fd fw :
  to_float a = Ok fa -> to_float d = Ok fd -> to_float w = Ok fw ->
  f_is_zero fd = false ->
  get_spent_calories (Running a d w) =
    Ok (PFloat (running_calories_formula
                  (mean_speed_formula (distance_formula fa (f_lit 0.65)) fd)
                  fw fd)).
Proof.
  intros Ea Ed Ew Hz. unfold get_spent_calories.
  rewrite (@get_mean_speed_eval (Running a d w) fa fd eq_refl Ea Ed Hz).
  unfold lift2. cbn [bind].
  rewrite (py_mul_float_l _ (PFloat _) eq_refl). cbn [bind].
  rewrite (py_add_float_l _ (PFloat _) eq_refl). cbn [bind].
  rewrite (py_mul_float_l _ _ Ew). cbn [bind].
  rewrite (py_truediv_float_l _ (PFloat M_IN_KM) eq_refl), M_IN_KM_nonzero.
  cbn [bind].
  rewrite (py_mul_float_l _ _ Ed). cbn [bind].
  rewrite (py_mul_float_l _ (PFloat _) eq_refl).
  reflexivity.
Qed.

End NonZeroKm.

End Formulas.

Section RunningFormula.

Context {F : Type} `{PyFloat F}.

(** The calorie formula of the specification for running, evaluated by the
    interpreter on the values at hand. *)
Definition running_calories_py (mean_speed weight_kg duration_hours : pyval F)
    : res (pyval F) :=
  lift2 py_mul
    (lift2 py_mul
       (lift2 py_truediv
          (lift2 py_mul
             (lift2 py_add
                (lift2 py_mul (Ok (PFloat (f_lit 18.0))) (Ok mean_speed))
                (Ok (PFloat (f_lit 1.79))))
             (Ok weight_kg))
          (Ok (PFloat (f_lit 1000.0))))
       (Ok duration_hours))
    (Ok (PFloat (f_lit 60.0))).

Lemma running_calories_from_mean_speed (a d w : pyval F) :
  get_spent_calories (Running a d w) =
    bind (get_mean_speed (Running a d w))
         (fun mean_speed => running_calories_py mean_speed w d).
Proof.
  unfold get_spent_calories, running_calories_py, lift2. cbn [bind].
  destruct (get_mean_speed (Running a d w)); reflexivity.
Qed.

End RunningFormula.

(** ** The program on IEEE 754 doubles *)

Lemma b64_M_IN_KM_nonzero : f_is_zero (M_IN_KM : float) = false.
Proof. vm_compute. reflexivity. Qed.

(** The literals of the source are the doubles the interpreter reads. *)
Example b64_literals :
  (f_lit 0.65 : float) = 0x1.4cccccccccccdp-1%float
  /\ (f_lit 1.38 : float) = 0x1.6147ae147ae14p+0%float
  /\ (f_lit 1000.0 : float) = 1000%float
  /\ (f_lit 9.75 : float) = 9.75%float.
Proof. repeat split; vm_compute; reflexivity. Qed.

(** Two doubles that differ as bit patterns are different. *)
Lemma b64_neq (x y : float) : Prim2SF x <> Prim2SF y -> x <> y.
Proof. intros Hne ->. now apply Hne. Qed.

(** The float a call returned (nan when it returned none). *)
Definition returned_float (r : res (pyval float)) : float :=
  match r with
  | Ok (PFloat x) => x
  | _ => nan
  end.

(** The rational a finite double stands for. *)
Definition b64_to_Q (x : float) : option Q :=
  match Prim2SF x with
  | S754_zero _ => Some 0%Q
  | S754_finite s m e =>
      Some (inject_Z (if s then Zneg m else Zpos m) * Qpower 2 e)%Q
  | S754_infinity _ | S754_nan => None
  end.

(** [abs(v - expected) <= tol] for a numeric [v], computed exactly. *)
Definition within_tolerance (v : pyval float) (expected tol : Q) : bool :=
  match v with
  | PFloat x =>
      match b64_to_Q x with
      | Some q => Qle_bool (Qabs (q - expected)) tol
      | None => false
      end
  | PInt n => Qle_bool (Qabs (inject_Z n - expected)) tol
  | PBool b => Qle_bool (Qabs (inject_Z (Z.b2z b) - expected)) tol
  | PStr _ => false
  end.

(** The call returns a value within 1e-2 of [expected]. *)
Definition returns_about (r : res (pyval float)) (expected : Q) : Prop :=
  exists v, r = Ok v /\ within_tolerance v expected 0.01 = true.

(** The call returns the float written [literal]. *)
Definition returns_float (r : res (pyval float)) (literal : Q) : Prop :=
  r = Ok (PFloat (f_lit literal)).

(** The sample packages of the driver. *)
Definition running_sample : training float :=
  Running (PInt 15000) (PInt 1) (PInt 75).
Definition walking_sample : training float :=
  SportsWalking (PInt 9000) (PInt 1) (PInt 75) (PInt 180).
Definition swimming_sample : training float :=
  Swimming (PInt 720) (PInt 1) (PInt 80) (PInt 25) (PInt 40).

Ltac run_sample E :=
  vm_compute in E; injection E as <-.

(** C2 as stated fails: the calories of the running sample are not within
    1e-2 of 691.71. *)
Lemma running_sample_calories_not_691_71 :
  ~ (returns_float (get_distance running_sample) 9.75
     /\ returns_float (get_mean_speed running_sample) 9.75
     /\ returns_about (get_spent_calories running_sample) 691.71).
Proof.
  intros (_ & _ & v & E & Htol). run_sample E.
  vm_compute in Htol. discriminate Htol.
Qed.

(** C2, amended: [Running(15000, 1, 75)] has distance 9.75 km, mean speed
    9.75 km/h and calories within 1e-2 of 797.805. *)
Theorem running_sample_metrics :
  returns_float (get_distance running_sample) 9.75
  /\ returns_float (get_mean_speed running_sample) 9.75
  /\ returns_about (get_spent_calories running_sample) 797.805.
Proof.
  split; [| split].
  - vm_compute. reflexivity.
  - vm_compute. reflexivity.
  - eexists. split; [vm_compute; reflexivity | vm_compute; reflexivity].
Qed.

(** C3 as stated fails: the calories of the walking sample are not within
    1e-2 of 157.23. *)
Lemma walking_sample_calories_not_157_23 :
  ~ (returns_float (get_distance walking_sample) 5.85
     /\ returns_float (get_mean_speed walking_sample) 5.85
     /\ returns_about (get_spent_calories walking_sample) 157.23).
Proof.
  intros (_ & _ & v & E & Htol). run_sample E.
  vm_compute in Htol. discriminate Htol.
Qed.

(** C3, amended: [SportsWalking(9000, 1, 75, 180)] has distance 5.85 km, mean
    speed 5.85 km/h and calories within 1e-2 of 349.252. *)
Theorem walking_sample_metrics :
  returns_float (get_distance walking_sample) 5.85
  /\ returns_float (get_mean_speed walking_sample) 5.85
  /\ returns_about (get_spent_calories walking_sample) 349.252.
Proof.
  split; [| split].
  - vm_compute. reflexivity.
  - vm_compute. reflexivity.
  - eexists. split; [vm_compute; reflexivity | vm_compute; reflexivity].
Qed.

(** C4 as stated fails: the distance of the swimming sample is not within
    1e-2 of 0.468 km. *)
Lemma swimming_sample_distance_not_0_468 :
  ~ (returns_float (get_mean_speed swimming_sample) 1.0
     /\ returns_about (get_distance swimming_sample) 0.468
     /\ returns_about (get_spent_calories swimming_sample) 336.0).
Proof.
  intros (_ & (v & E & Htol) & _). run_sample E.
  vm_compute in Htol. discriminate Htol.
Qed.

(** C4, amended: [Swimming(720, 1, 80, 25, 40)] has mean speed 1.0 km/h,
    distance within 1e-2 of 0.9936 km (720 strokes of 1.38 m) and calories
    within 1e-2 of 336.0. *)
Theorem swimming_sample_metrics :
  returns_float (get_mean_speed swimming_sample) 1.0
  /\ returns_about (get_distance swimming_sample) 0.9936
  /\ returns_about (get_spent_calories swimming_sample) 336.0
  /\ LEN_STEP swimming_sample = f_lit 1.38.
Proof.
  split; [| split; [| split]].
  - vm_compute. reflexivity.
  - eexists. split; [vm_compute; reflexivity | vm_compute; reflexivity].
  - eexists. split; [vm_compute; reflexivity | vm_compute; reflexivity].
  - reflexivity.
Qed.

(** C5: the calories of a run are
    [(18.0 * mean_speed + 1.79) * weight / 1000.0 * duration * 60.0] with
    [mean_speed] what [get_mean_speed] returns, the distance over the
    duration: as the interpreter evaluates it whatever the fields, and as one
    float expression when the fields are numbers that fit a float and the
    duration is not zero. *)
Theorem running_calories_formula_holds (a d w : pyval float) :
  get_spent_calories (Running a d w) =
    bind (get_mean_speed (Running a d w))
         (fun mean_speed => running_calories_py mean_speed w d)
  /\ forall fa fd fw,
       to_float a = Ok fa -> to_float d = Ok fd -> to_float w = Ok fw ->
       f_is_zero fd = false ->
       get_distance (Running a d w) =
         Ok (PFloat (distance_formula fa (f_lit 0.65)))
       /\ get_mean_speed (Running a d w) =
            Ok (PFloat (mean_speed_formula
                          (distance_formula fa (f_lit 0.65)) fd))
       /\ get_spent_calories (Running a d w) =
            Ok (PFloat (running_calories_formula
                          (mean_speed_formula
                             (distance_formula fa (f_lit 0.65)) fd)
                          fw fd)).
Proof.
  split; [apply running_calories_from_mean_speed |].
  intros fa fd fw Ea Ed Ew Hz. split; [| split].
  - apply (get_distance_eval b64_M_IN_KM_nonzero (Running a d w) Ea).
  - apply (get_mean_speed_eval b64_M_IN_KM_nonzero (Running a d w)
             eq_refl Ea Ed Hz).
  - apply (running_calories_eval b64_M_IN_KM_nonzero a d w Ea Ed Ew Hz).
Qed.

Lemma running_calories_formula_witness :
  get_spent_calories (Running (PInt 12000) (PFloat 1.5%float) (PBool true)) =
    Ok (PFloat (running_calories_formula
                  (mean_speed_formula
                     (distance_formula 12000%float (f_lit 0.65)) 1.5%float)
                  1%float 1.5%float)).
Proof.
  apply (proj2 (running_calories_formula_holds
                  (PInt 12000) (PFloat 1.5%float) (PBool true))
               12000%float 1.5%float 1%float);
    vm_compute; reflexivity.
Defined.

(** *** A duration of zero *)

(** A numeric zero converts to a float that is zero. *)
Lemma b64_zero_to_float (v : pyval float) :
  py_is_zero v = true ->
  exists fd, to_float v = Ok fd /\ f_is_zero fd = true.
Proof.
  destruct v as [n | x | b | s]; cbn [py_is_zero]; intros Hz;
    try discriminate Hz.
  - apply Z.eqb_eq in Hz. subst n. exists 0%float.
    split; vm_compute; reflexivity.
  - exists x. now split.
  - destruct b; try discriminate Hz. exists 0%float.
    split; vm_compute; reflexivity.
Qed.

Lemma fields_duration (F : Type) (t : training F) :
  nth_error (fields t) 1 = Some (duration t).
Proof. destruct t; reflexivity. Qed.

Lemma instance_overrides (F : Type) (t : training F) cls :
  instance_of t cls = true -> overrides_get_spent_calories t = true.
Proof. destruct t, cls; try discriminate; reflexivity. Qed.

(** What C9 states of a package: the instance is built, and each of
    [get_mean_speed] and [get_spent_calories] divides by zero. *)
Definition divides_by_zero (code : string) (data : list (pyval float)) : Prop :=
  exists t, read_package code data = Ok t
            /\ get_mean_speed t = Raise ZeroDivisionError
            /\ get_spent_calories t = Raise ZeroDivisionError.

(** A run of 10^309 steps in zero hours. *)
Definition huge_package : list (pyval float) :=
  [PInt (10 ^ 309); PInt 0; PInt 75].
Definition huge_run : training float :=
  Running (PInt (10 ^ 309)) (PInt 0) (PInt 75).

(** C9 as stated fails: a run of 10^309 steps in zero hours is a valid
    package (known code, three numbers, duration 0), but [get_mean_speed]
    raises OverflowError on the distance before it reaches the division. *)
Lemma huge_action_overflows_before_dividing :
  required_arity "RUN" = Some (List.length huge_package)
  /\ forallb isinstance_float_int huge_package = true
  /\ nth_error huge_package 1 = Some (PInt 0)
  /\ py_is_zero (PInt 0 : pyval float) = true
  /\ read_package "RUN" huge_package = Ok huge_run
  /\ get_mean_speed huge_run = Raise OverflowError
  /\ ~ divides_by_zero "RUN" huge_package.
Proof.
  assert (Eread : read_package "RUN" huge_package = Ok huge_run)
    by (vm_compute; reflexivity).
  assert (Hspeed : get_mean_speed huge_run = Raise OverflowError)
    by (vm_compute; reflexivity).
  split; [vm_compute; reflexivity |].
  split; [vm_compute; reflexivity |].
  split; [vm_compute; reflexivity |].
  split; [vm_compute; reflexivity |].
  split; [exact Eread |].
  split; [exact Hspeed |].
  intros (t & E & Hs & _). congruence.
Qed.

(** C9, amended: the factory checks no range.  For a known code and numeric
    data of the required arity whose duration is zero, the instance is built,
    and neither [get_mean_speed] nor [get_spent_calories] returns: both raise
    ZeroDivisionError when the numerator of the speed can be computed, and
    both raise the OverflowError of the numerator when an [int] in it is too
    large for a float. *)
Theorem zero_duration_never_returns
    (code : string) (data : list (pyval float)) (n : nat) (d : pyval float) :
  required_arity code = Some n ->
  List.length data = n ->
  Forall (fun x => isinstance_float_int x = true) data ->
  nth_error data 1 = Some d ->
  py_is_zero d = true ->
  exists t, read_package code data = Ok t
            /\ fields t = data
            /\ ((exists x, mean_speed_numerator t = Ok (PFloat x))
                /\ get_mean_speed t = Raise ZeroDivisionError
                /\ get_spent_calories t = Raise ZeroDivisionError
                \/
                mean_speed_numerator t = Raise OverflowError
                /\ get_mean_speed t = Raise OverflowError
                /\ get_spent_calories t = Raise OverflowError).
Proof.
  intros Hn Hlen Hnum Hd Hz.
  assert (Hb : forallb isinstance_float_int data = true)
    by now apply forallb_true_Forall.
  destruct (read_package_valid _ _ Hn Hlen Hb)
    as (t & E & Hf & cls & _ & Hcls).
  exists t. split; [exact E |]. split; [exact Hf |].
  assert (Hdur : duration t = d).
  { pose proof (fields_duration t) as Hfd. rewrite Hf, Hd in Hfd.
    now injection Hfd. }
  destruct (b64_zero_to_float _ Hz) as (fd & Efd & Hfz).
  rewrite <- Hdur in Efd. rewrite <- Hf in Hnum.
  pose proof (get_mean_speed_zero_duration b64_M_IN_KM_nonzero t Hnum Efd Hfz)
    as Hs.
  assert (Hov : overrides_get_spent_calories t = true).
  { exact (instance_overrides t cls Hcls). }
  destruct (mean_speed_numerator_number b64_M_IN_KM_nonzero t Hnum)
    as [[x Ex] | Ex]; rewrite Ex in Hs; cbn [bind] in Hs.
  - left. split; [now exists x |]. split; [exact Hs |].
    now apply get_spent_calories_raise.
  - right. split; [exact Ex |]. split; [exact Hs |].
    now apply get_spent_calories_raise.
Qed.

Lemma zero_duration_never_returns_witness :
  exists t : training float,
    read_package "SWM" [PInt 720; PFloat 0%float; PInt 80; PInt 25; PInt 40]
      = Ok t
    /\ fields t = [PInt 720; PFloat 0%float; PInt 80; PInt 25; PInt 40]
    /\ ((exists x, mean_speed_numerator t = Ok (PFloat x))
        /\ get_mean_speed t = Raise ZeroDivisionError
        /\ get_spent_calories t = Raise ZeroDivisionError
        \/
        mean_speed_numerator t = Raise OverflowError
        /\ get_mean_speed t = Raise OverflowError
        /\ get_spent_calories t = Raise OverflowError).
Proof.
  apply (@zero_duration_never_returns "SWM"
           [PInt 720; PFloat 0%float; PInt 80; PInt 25; PInt 40]
           5%nat (PFloat 0%float)).
  - reflexivity.
  - reflexivity.
  - repeat constructor.
  - reflexivity.
  - vm_compute. reflexivity.
Defined.

(** ** Speed, duration and distance *)

(** What C10 states of an instance: [get_mean_speed() * duration] is
    [get_distance()]. *)
Definition speed_times_duration_is_distance
    {F : Type} `{PyFloat F} (t : training F) : Prop :=
  exists speed distance,
    get_mean_speed t = Ok speed
    /\ get_distance t = Ok distance
    /\ py_mul speed (duration t) = Ok distance.

(** C10 as stated fails on doubles: for a run of 12000 steps in 3 hours the
    distance is 7.8, the mean speed 2.6, and 2.6 * 3 is
    7.800000000000001. *)
Lemma run_12000_steps_3_hours_rounds :
  py_is_zero (PInt 3 : pyval float) = false
  /\ ~ speed_times_duration_is_distance
        (Running (PInt 12000) (PInt 3) (PInt 75) : training float).
Proof.
  split; [reflexivity |].
  intros (s & dist & Es & Ed & Em).
  vm_compute in Es. injection Es as <-.
  vm_compute in Ed. injection Ed as <-.
  vm_compute in Em. apply (f_equal returned_float) in Em.
  cbn [returned_float] in Em. revert Em. apply b64_neq.
  vm_compute. discriminate.
Qed.

(** *** The exact reading *)

Lemma exact_M_IN_KM_nonzero : f_is_zero (M_IN_KM : Qc) = false.
Proof. vm_compute. reflexivity. Qed.

Lemma exact_is_zero_false (x : Qc) : f_is_zero x = false -> x <> Q2Qc 0.
Proof.
  cbn [f_is_zero exact]. intros Hz ->. unfold Qc_eq_bool in Hz.
  destruct (Qc_eq_dec (Q2Qc 0) (Q2Qc 0)); congruence.
Qed.

Lemma exact_to_float (v : pyval Qc) :
  isinstance_float_int v = true -> exists x, to_float v = Ok x.
Proof. destruct v; try discriminate; intros _; eexists; reflexivity. Qed.

Lemma exact_int_nonzero (n : Z) :
  n <> 0 -> f_is_zero (Q2Qc (inject_Z n)) = false.
Proof.
  intros Hn. cbn [f_is_zero exact].
  destruct (Qc_eq_bool (Q2Qc (inject_Z n)) (Q2Qc 0)) eqn:E; [| reflexivity].
  apply Qc_eq_bool_correct in E. apply Q2Qc_eq_iff in E.
  unfold Qeq in E. cbn in E. lia.
Qed.

Lemma exact_nonzero_to_float (v : pyval Qc) (x : Qc) :
  to_float v = Ok x -> py_is_zero v = false -> f_is_zero x = false.
Proof.
  destruct v as [n | y | b | s]; cbn [to_float py_is_zero f_int exact];
    intros E Hz; try discriminate E; injection E as <-.
  - apply exact_int_nonzero. now apply Z.eqb_neq.
  - exact Hz.
  - destruct b; [vm_compute; reflexivity | discriminate Hz].
Qed.

(** In exact arithmetic the default mean speed times the duration is the
    distance. *)
Lemma exact_speed_times_duration (t : training Qc) :
  is_swimming t = false ->
  Forall (fun v => isinstance_float_int v = true) (fields t) ->
  py_is_zero (duration t) = false ->
  speed_times_duration_is_distance t.
Proof.
  intros Hs Hnum Hz. rewrite Forall_forall in Hnum.
  assert (Ha : exists fa, to_float (action t) = Ok fa).
  { apply exact_to_float, Hnum. destruct t; cbn; tauto. }
  assert (Hd : exists fd, to_float (duration t) = Ok fd).
  { apply exact_to_float, Hnum. destruct t; cbn; tauto. }
  destruct Ha as [fa Ea]. destruct Hd as [fd Ed].
  pose proof (exact_nonzero_to_float _ Ed Hz) as Hfz.
  eexists. eexists. split; [| split].
  - apply (get_mean_speed_eval exact_M_IN_KM_nonzero t Hs Ea Ed Hfz).
  - apply (get_distance_eval exact_M_IN_KM_nonzero t Ea).
  - rewrite (py_mul_float_l _ _ Ed). do 2 f_equal.
    unfold mean_speed_formula. cbn [f_mul f_div exact].
    apply exact_is_zero_false in Hfz.
    generalize (distance_formula fa (LEN_STEP t)). intros dist.
    field. exact Hfz.
Qed.

Definition exact_swimming_sample : training Qc :=
  Swimming (PInt 720) (PInt 1) (PInt 80) (PInt 25) (PInt 40).

(** C10, amended: for every instance but a swimming one the mean speed is
    the distance divided by the duration, so that in exact arithmetic, for
    numeric fields and a duration that is not zero, the mean speed times the
    duration is the distance (on doubles the product is rounded); the
    swimming speed comes from the pool length and the lap count, and for the
    swimming sample, whose speed is 1.0 and whose distance is 0.9936, the
    product is not the distance, on doubles or exactly. *)
Theorem mean_speed_derived_from_distance :
  (forall (F : Type) (PF : PyFloat F) (t : training F),
      is_swimming t = false ->
      get_mean_speed t =
        lift2 py_truediv (get_distance t) (Ok (duration t)))
  /\ (forall t : training Qc,
         ((exists a d w, t = Running a d w)
          \/ (exists a d w h, t = SportsWalking a d w h)) ->
         Forall (fun v => isinstance_float_int v = true) (fields t) ->
         py_is_zero (duration t) = false ->
         speed_times_duration_is_distance t)
  /\ (forall (F : Type) (PF : PyFloat F) (a d w length_pool count_pool : pyval F),
         get_mean_speed (Swimming a d w length_pool count_pool) =
           lift2 py_truediv
             (lift2 py_truediv
                (lift2 py_mul (Ok length_pool) (Ok count_pool))
                (Ok (PFloat M_IN_KM)))
             (Ok d)
         /\ get_distance (Swimming a d w length_pool count_pool) =
              lift2 py_truediv
                (lift2 py_mul (Ok a) (Ok (PFloat (f_lit 1.38))))
                (Ok (PFloat M_IN_KM)))
  /\ ~ speed_times_duration_is_distance swimming_sample
  /\ ~ speed_times_duration_is_distance exact_swimming_sample.
Proof.
  split; [| split; [| split; [| split]]].
  - intros F PF t Hs. now apply get_mean_speed_default.
  - intros t Hv Hnum Hz. apply exact_speed_times_duration; try assumption.
    destruct Hv as [(a & d & w & ->) | (a & d & w & h & ->)]; reflexivity.
  - intros F PF a d w lp cp. split; reflexivity.
  - intros (s & dist & Es & Ed & Em).
    vm_compute in Es. injection Es as <-.
    vm_compute in Ed. injection Ed as <-.
    vm_compute in Em. apply (f_equal returned_float) in Em.
    cbn [returned_float] in Em. revert Em. apply b64_neq.
    vm_compute. discriminate.
  - intros (s & dist & Es & Ed & Em).
    vm_compute in Es. injection Es as <-.
    vm_compute in Ed. injection Ed as <-.
    vm_compute in Em. discriminate Em.
Qed.

Lemma mean_speed_derived_from_distance_witness :
  speed_times_duration_is_distance
    (Running (PInt 12000) (PInt 3) (PInt 75) : training Qc).
Proof.
  apply (proj1 (proj2 mean_speed_derived_from_distance)
           (Running (PInt 12000) (PInt 3) (PInt 75))).
  - left. now exists (PInt 12000), (PInt 3), (PInt 75).
  - repeat constructor.
  - reflexivity.
Defined.

(** ** The theorems at concrete inputs *)

Lemma read_package_builds_variant_witness :
  exists t : training float,
    read_package "SWM" [PInt 720; PInt 1; PInt 80; PInt 25; PInt 40] = Ok t
    /\ (exists cls, variant_of_code "SWM" = Some cls
                    /\ instance_of t cls = true)
    /\ fields t = [PInt 720; PInt 1; PInt 80; PInt 25; PInt 40].
Proof.
  apply (@read_package_builds_variant float "SWM"
           [PInt 720; PInt 1; PInt 80; PInt 25; PInt 40] 5%nat).
  - reflexivity.
  - reflexivity.
  - repeat constructor.
Defined.

Lemma read_package_accepts_bool_witness :
  exists t : training float,
    read_package "WLK" [PBool true; PFloat 0.5%float; PInt 75; PBool false]
      = Ok t
    /\ fields t = [PBool true; PFloat 0.5%float; PInt 75; PBool false].
Proof.
  apply (proj1 (@read_package_accepts_bool float binary64 "WLK"
                  [PBool true; PFloat 0.5%float; PInt 75; PBool false] 4%nat
                  eq_refl eq_refl
                  (Forall_cons _ (or_introl (ex_intro _ true eq_refl))
                     (Forall_cons _
                        (or_intror (or_intror (ex_intro _ 0.5%float eq_refl)))
                        (Forall_cons _
                           (or_intror (or_introl (ex_intro _ 75 eq_refl)))
                           (Forall_cons _
                              (or_introl (ex_intro _ false eq_refl))
                              (Forall_nil _))))))).
Defined.

Lemma get_spent_calories_not_implemented_witness :
  get_spent_calories
    (Subclass "Cycling" (PInt 1000) (PInt 1) (PInt 70) : training float) =
    Raise (NotImplementedError "Определите калории в Cycling.").
Proof.
  apply (proj1 (@get_spent_calories_not_implemented float binary64
                  (Subclass "Cycling" (PInt 1000) (PInt 1) (PInt 70))
                  eq_refl)).
Defined.

(** * Beyond the claims *)

(** ** The factory: its tables, the order of its checks, round trips *)

Section FactoryTables.

Context {F : Type} `{PyFloat F}.

Implicit Types (data : list (pyval F)) (code : string).

(** The two dicts of [read_package] have the same keys, and the length the
    first records for a code is the number of arguments [__init__] of the
    class the second records takes: once the length check has passed, the
    call of the class cannot fail. *)
Theorem tables_agree code :
  ((exists n, dict_get data_len code = Ok n)
   <-> (exists cls, dict_get training_type_dict code = Ok cls))
  /\ (forall n cls data,
        dict_get data_len code = Ok n ->
        dict_get training_type_dict code = Ok cls ->
        (List.length data = n
         <-> exists t : training F, call_class cls data = Ok t))
  /\ (forall e, dict_get data_len code = Raise e -> e = KeyError code).
Proof.
  unfold data_len, training_type_dict, dict_get.
  destruct (String.eqb "SWM" code); [| destruct (String.eqb "RUN" code);
    [| destruct (String.eqb "WLK" code)]].
  all: split; [split; intros [x Hx]; try discriminate Hx; eexists; reflexivity |].
  all: split; [| intros e He; try discriminate He; now injection He as <-].
  all: intros n cls data Hn Hc; try discriminate Hn;
    injection Hn as <-; injection Hc as <-.
  all: split;
    [ intros Hlen;
      repeat (destruct data as [| ? data]; try discriminate Hlen);
      eexists; reflexivity
    | intros [t Ht];
      repeat (destruct data as [| ? data]; try discriminate Ht);
      reflexivity ].
Qed.

(** The length is checked before the elements: data of the wrong length is
    reported as such, with the code in the message, whether or not its
    elements are numbers; the element check is only reached with the right
    length. *)
Theorem length_checked_before_elements code n data :
  required_arity code = Some n ->
  (List.length data <> n ->
   read_package code data =
     Raise (ValueError ("Неправильное количествоэлементов для " ++ code)))
  /\ (List.length data = n ->
      Exists (fun x => isinstance_float_int x = false) data ->
      read_package code data =
        Raise (ValueError
                 "В массиве присутствуют значения, отличные от целых чисел")).
Proof.
  intros Hn. split.
  - intros Hlen. now apply read_package_wrong_len with n.
  - intros Hlen Hex. apply read_package_not_numeric with n; try assumption.
    now apply forallb_false_Exists.
Qed.



End FactoryTables.

(** ** The other calorie formulas *)

Section SpecFormulas2.

Context {F : Type} `{PyFloat F}.


(** [pool_length_m * lap_count / meters_per_km / duration_hours], given the
    product of the pool length and the lap count. *)
Definition swimming_speed_formula (pool_metres duration_hours : F) : F :=
  f_div (f_div pool_metres (f_lit 1000.0)) duration_hours.

(** [(mean_speed_kmh + speed_offset) * calorie_multiplier * weight_kg
     * duration_hours] with the offset 1.1 and the multiplier 2.0. *)
Definition swimming_calories_formula
    (mean_speed_kmh weight_kg duration_hours : F) : F :=
  f_mul
    (f_mul (f_mul (f_add mean_speed_kmh (f_lit 1.1)) (f_lit 2.0)) weight_kg)
    duration_hours.

End SpecFormulas2.

Section MoreFormulas.

Context {F : Type} `{PyFloat F}.

Implicit Types (v a d w h : pyval F) (c x y : F) (self : training F).

(** 1000.0 and 100.0 are not zero. *)
Hypothesis M_IN_KM_nonzero : f_is_zero (M_IN_KM : F) = false.
Hypothesis HEIGHT_DIV_nonzero : f_is_zero (HEIGHT_DIV : F) = false.

(** The first half of the walking formula: the speed in m/s and the height
    in metres. *)
Lemma walking_calories_unfold a d w h fa fd fh :
  to_float a = Ok fa -> to_float d = Ok fd -> to_float h = Ok fh ->
  f_is_zero fd = false ->
  get_spent_calories (SportsWalking a d w h) =
    lift2 py_mul
      (lift2 py_mul
         (lift2 py_add
            (lift2 py_mul
               (Ok (PFloat Walking_CALORIES_MEAN_SPEED_MULTIPLIER)) (Ok w))
            (lift2 py_mul
               (lift2 py_mul
                  (lift2 py_truediv
                     (pow_MEAN_SPEED_POW_VALUE
                        (Ok (PFloat
                               (f_mul
                                  (mean_speed_formula
                                     (distance_formula fa (f_lit 0.65)) fd)
                                  KMH_IN_MSEC))))
                     (Ok (PFloat (f_div fh HEIGHT_DIV))))
                  (Ok (PFloat Walking_CALORIES_MEAN_SPEED_SHIFT)))
               (Ok w)))
         (Ok d))
      (Ok (PFloat MINUTES_IN_HOUR)).
Proof.
  intros Ea Ed Eh Hz. unfold get_spent_calories.
  rewrite (get_mean_speed_eval M_IN_KM_nonzero (SportsWalking a d w h)
             eq_refl Ea Ed Hz).
  unfold lift2 at 1. cbn [bind].
  rewrite (py_mul_float_l _ (PFloat _) eq_refl). cbn [bind].
  unfold lift2 at 1. cbn [bind].
  rewrite (py_truediv_float_r _ _ Eh), HEIGHT_DIV_nonzero. cbn [bind].
  reflexivity.
Qed.


Lemma walking_calories_zero_height a d w h fa fd fw fh sq :
  to_float a = Ok fa -> to_float d = Ok fd ->
  to_float w = Ok fw -> to_float h = Ok fh ->
  f_is_zero fd = false ->
  f_pow2 (f_mul (mean_speed_formula (distance_formula fa (f_lit 0.65)) fd)
                KMH_IN_MSEC) = Some sq ->
  f_is_zero (f_div fh HEIGHT_DIV) = true ->
  get_spent_calories (SportsWalking a d w h) = Raise ZeroDivisionError.
Proof.
  intros Ea Ed Ew Eh Hz Hsq Hh.
  rewrite (walking_calories_unfold a d w h Ea Ed Eh Hz).
  unfold lift2, pow_MEAN_SPEED_POW_VALUE, py_pow2. cbn [bind to_float].
  rewrite Hsq. cbn [bind].
  rewrite (py_mul_float_l _ _ Ew). cbn [bind].
  rewrite (py_truediv_float_l _ (PFloat _) eq_refl), Hh. cbn [bind].
  reflexivity.
Qed.

Lemma swimming_speed_eval a d w lp cp p fp fd :
  py_mul lp cp = Ok p -> to_float p = Ok fp -> to_float d = Ok fd ->
  f_is_zero fd = false ->
  get_mean_speed (Swimming a d w lp cp) =
    Ok (PFloat (swimming_speed_formula fp fd)).
Proof.
  intros Ep Efp Ed Hz. unfold get_mean_speed, lift2. cbn [bind].
  rewrite Ep. cbn [bind].
  rewrite (py_truediv_float_r _ _ Efp), M_IN_KM_nonzero. cbn [bind].
  rewrite (py_truediv_float_l _ _ Ed), Hz. reflexivity.
Qed.

Lemma swimming_calories_eval a d w lp cp p fp fd fw :
  py_mul lp cp = Ok p -> to_float p = Ok fp -> to_float d = Ok fd ->
  to_float w = Ok fw -> f_is_zero fd = false ->
  get_spent_calories (Swimming a d w lp cp) =
    Ok (PFloat (swimming_calories_formula
                  (swimming_speed_formula fp fd) fw fd)).
Proof.
  intros Ep Efp Ed Ew Hz. unfold get_spent_calories.
  rewrite (swimming_speed_eval a d w lp cp Ep Efp Ed Hz).
  unfold lift2. cbn [bind].
  rewrite (py_add_float_l _ (PFloat _) eq_refl). cbn [bind].
  rewrite (py_mul_float_l _ (PFloat _) eq_refl). cbn [bind].
  rewrite (py_mul_float_l _ _ Ew). cbn [bind].
  rewrite (py_mul_float_l _ _ Ed). reflexivity.
Qed.

End MoreFormulas.

Section Summary.

Context {F : Type} `{PyFloat F}.

(** When [get_spent_calories] returns, [get_mean_speed] did. *)
Lemma calories_needs_speed (self : training F) c :
  get_spent_calories self = Ok c -> exists s, get_mean_speed self = Ok s.
Proof.
  intros Hc. destruct (get_mean_speed self) as [s | e] eqn:E;
    [now exists s |].
  destruct (overrides_get_spent_calories self) eqn:Hov.
  - rewrite (get_spent_calories_raise self Hov E) in Hc. discriminate Hc.
  - destruct self; discriminate Hov || discriminate Hc.
Qed.

(** When the default [get_mean_speed] returns, [get_distance] did. *)
Lemma speed_needs_distance (self : training F) s :
  is_swimming self = false ->
  get_mean_speed self = Ok s -> exists dist, get_distance self = Ok dist.
Proof.
  intros Hs E. rewrite (get_mean_speed_default self Hs) in E.
  destruct (get_distance self) as [dist | e]; [now exists dist |].
  discriminate E.
Qed.

Lemma summary_of_calories (self : training F) c :
  is_swimming self = false ->
  get_spent_calories self = Ok c ->
  exists dist speed,
    get_distance self = Ok dist
    /\ get_mean_speed self = Ok speed
    /\ show_training_info self =
         Ok {| training_type := type_name self;
               info_duration := duration self;
               info_distance := dist;
               info_speed := speed;
               info_calories := c |}.
Proof.
  intros Hs Hc.
  destruct (calories_needs_speed self Hc) as [speed Es].
  destruct (speed_needs_distance self Hs Es) as [dist Ed].
  exists dist, speed. split; [exact Ed |]. split; [exact Es |].
  unfold show_training_info. rewrite Ed, Es, Hc. reflexivity.
Qed.

End Summary.

(** ** The formulas on doubles *)

Lemma b64_HEIGHT_DIV_nonzero : f_is_zero (HEIGHT_DIV : float) = false.
Proof. vm_compute. reflexivity. Qed.

(** A double that compares equal to 0.0 is 0.0 or -0.0. *)
Lemma b64_zero_cases (x : float) :
  PrimFloat.eqb x 0%float = true -> x = 0%float \/ x = (-0)%float.
Proof.
  rewrite FloatAxioms.eqb_spec. intros Hx.
  change (Prim2SF 0) with (S754_zero false) in Hx.
  rewrite <- (SF2Prim_Prim2SF x).
  destruct (Prim2SF x) as [s | s | | s m e]; try discriminate Hx.
  - destruct s; [right | left]; reflexivity.
  - destruct s; discriminate Hx.
  - destruct s; discriminate Hx.
Qed.

(** A numeric zero divided by 100.0 is zero. *)
Lemma b64_zero_height (h : pyval float) :
  py_is_zero h = true ->
  exists fh, to_float h = Ok fh /\ f_is_zero (f_div fh HEIGHT_DIV) = true.
Proof.
  destruct h as [n | x | b | s]; cbn [py_is_zero]; intros Hz;
    try discriminate Hz.
  - apply Z.eqb_eq in Hz. subst n. exists 0%float.
    split; vm_compute; reflexivity.
  - exists x. split; [reflexivity |].
    destruct (b64_zero_cases Hz) as [-> | ->]; vm_compute; reflexivity.
  - destruct b; try discriminate Hz. exists 0%float.
    split; vm_compute; reflexivity.
Qed.



(** A height of zero passes the factory, and then the walking formula
    divides by it: with fields that convert to floats, a duration that is not
    zero and a square that does not overflow, [get_spent_calories] raises
    ZeroDivisionError, though distance and mean speed are returned. *)
Theorem walking_zero_height_divides_by_zero
    (a d w h : pyval float) (fa fd fw sq : float) :
  to_float a = Ok fa -> to_float d = Ok fd -> to_float w = Ok fw ->
  f_is_zero fd = false ->
  f_pow2 (f_mul (mean_speed_formula (distance_formula fa (f_lit 0.65)) fd)
                (f_lit 0.278)) = Some sq ->
  py_is_zero h = true ->
  read_package "WLK" [a; d; w; h] = Ok (SportsWalking a d w h)
  /\ (exists dist, get_distance (SportsWalking a d w h) = Ok dist)
  /\ (exists speed, get_mean_speed (SportsWalking a d w h) = Ok speed)
  /\ get_spent_calories (SportsWalking a d w h) = Raise ZeroDivisionError
  /\ show_training_info (SportsWalking a d w h) = Raise ZeroDivisionError.
Proof.
  intros Ea Ed Ew Hz Hsq Hh.
  destruct (b64_zero_height h Hh) as (fh & Eh & Hfh).
  assert (Hcal : get_spent_calories (SportsWalking a d w h) =
                 Raise ZeroDivisionError).
  { exact (walking_calories_zero_height b64_M_IN_KM_nonzero
             b64_HEIGHT_DIV_nonzero a d w h Ea Ed Ew Eh Hz Hsq Hfh). }
  pose proof (get_distance_eval b64_M_IN_KM_nonzero (SportsWalking a d w h) Ea)
    as Hdist.
  pose proof (get_mean_speed_eval b64_M_IN_KM_nonzero (SportsWalking a d w h)
                eq_refl Ea Ed Hz) as Hspeed.
  split; [| split; [| split; [| split]]].
  - assert (Hnum : forallb isinstance_float_int [a; d; w; h] = true).
    { cbn [forallb].
      destruct a, d, w, h; try discriminate Ea; try discriminate Ed;
        try discriminate Ew; try discriminate Eh; reflexivity. }
    unfold read_package.
    cbn [dict_get data_len String.eqb Ascii.eqb Bool.eqb bind List.length
         Nat.eqb negb].
    rewrite Hnum. reflexivity.
  - eexists. exact Hdist.
  - eexists. exact Hspeed.
  - exact Hcal.
  - unfold show_training_info. rewrite Hdist, Hspeed, Hcal. reflexivity.
Qed.

Lemma walking_zero_height_witness :
  get_spent_calories
    (SportsWalking (PInt 9000) (PInt 1) (PInt 75) (PInt 0) : training float) =
    Raise ZeroDivisionError.
Proof.
  apply (@walking_zero_height_divides_by_zero
           (PInt 9000) (PInt 1) (PInt 75) (PInt 0)
           9000%float 1%float 75%float
           (PrimFloat.mul (PrimFloat.mul (f_lit 5.85) (f_lit 0.278))
                          (PrimFloat.mul (f_lit 5.85) (f_lit 0.278))));
    vm_compute; reflexivity.
Defined.

(** [Swimming]: the mean speed is the pool length times the lap count, over
    1000.0 and over the duration, and the calories are
    [(mean_speed + 1.1) * 2.0 * weight * duration]; neither reads [action],
    which may be anything. *)
Theorem swimming_formulas_hold
    (a d w length_pool count_pool p : pyval float) (fp fd fw : float) :
  py_mul length_pool count_pool = Ok p ->
  to_float p = Ok fp -> to_float d = Ok fd -> to_float w = Ok fw ->
  f_is_zero fd = false ->
  get_mean_speed (Swimming a d w length_pool count_pool) =
    Ok (PFloat (swimming_speed_formula fp fd))
  /\ get_spent_calories (Swimming a d w length_pool count_pool) =
       Ok (PFloat (swimming_calories_formula
                     (swimming_speed_formula fp fd) fw fd)).
Proof.
  intros Ep Efp Ed Ew Hz. split.
  - exact (swimming_speed_eval b64_M_IN_KM_nonzero a d w length_pool
             count_pool Ep Efp Ed Hz).
  - exact (swimming_calories_eval b64_M_IN_KM_nonzero a d w length_pool
             count_pool Ep Efp Ed Ew Hz).
Qed.

Lemma swimming_formulas_witness :
  get_mean_speed
    (Swimming (PStr "no strokes") (PFloat 0.5%float) (PInt 80)
              (PInt 25) (PInt 40)) =
    Ok (PFloat (swimming_speed_formula 1000%float 0.5%float))
  /\ get_spent_calories
       (Swimming (PStr "no strokes") (PFloat 0.5%float) (PInt 80)
                 (PInt 25) (PInt 40)) =
       Ok (PFloat (swimming_calories_formula
                     (swimming_speed_formula 1000%float 0.5%float)
                     80%float 0.5%float)).
Proof.
  apply (@swimming_formulas_hold
           (PStr "no strokes") (PFloat 0.5%float) (PInt 80)
           (PInt 25) (PInt 40) (PInt 1000)
           1000%float 0.5%float 80%float);
    vm_compute; reflexivity.
Defined.

(** [Training.get_distance] returns a float when [action] converts to one,
    and otherwise raises what the conversion raises: TypeError exactly for a
    [str], OverflowError exactly for an [int] too large for a float.  It
    raises nothing else. *)
Theorem get_distance_outcomes (self : training float) :
  (forall fa, to_float (action self) = Ok fa ->
     get_distance self = Ok (PFloat (distance_formula fa (LEN_STEP self))))
  /\ (get_distance self = Raise TypeError <-> exists s, action self = PStr s)
  /\ (get_distance self = Raise OverflowError <->
      exists n, as_int (action self) = Some n /\ f_int n = None (A := float))
  /\ (forall e, get_distance self = Raise e ->
        e = TypeError \/ e = OverflowError).
Proof.
  assert (Hcases :
    (exists fa, to_float (action self) = Ok fa
                /\ get_distance self =
                     Ok (PFloat (distance_formula fa (LEN_STEP self))))
    \/ ((exists s, action self = PStr s)
        /\ get_distance self = Raise TypeError)
    \/ ((exists n, as_int (action self) = Some n /\ f_int n = None (A := float))
        /\ get_distance self = Raise OverflowError)).
  { destruct (to_float (action self)) as [fa | e] eqn:E.
    - left. exists fa. split; [reflexivity |].
      apply (get_distance_eval b64_M_IN_KM_nonzero self E).
    - right. pose proof (get_distance_raise self E) as Hr.
      destruct (action self) as [n | x | b | s] eqn:Ea;
        cbn [to_float as_int] in *; try discriminate E.
      + right. destruct (f_int n) eqn:En; [discriminate E |].
        injection E as <-. split; [now exists n | exact Hr].
      + right. destruct (f_int (Z.b2z b)) eqn:En; [discriminate E |].
        injection E as <-. split; [now exists (Z.b2z b) | exact Hr].
      + left. injection E as <-. split; [now exists s | exact Hr]. }
  split; [| split; [| split]].
  - intros fa Ea. apply (get_distance_eval b64_M_IN_KM_nonzero self Ea).
  - split.
    + intros Hr.
      destruct Hcases as [(fa & _ & Hd) | [[Hs _] | [_ Hd]]];
        [congruence | exact Hs | congruence].
    + intros [s Hs].
      destruct Hcases as [(fa & Ea & _) | [[_ Hd] | [(n & Hn & _) _]]];
        [| exact Hd |]; rewrite Hs in *; discriminate.
  - split.
    + intros Hr.
      destruct Hcases as [(fa & _ & Hd) | [[_ Hd] | [Hn _]]];
        [congruence | congruence | exact Hn].
    + intros (n & Hn & Hf).
      destruct Hcases as [(fa & Ea & _) | [[[s Hs] _] | [_ Hd]]];
        [| rewrite Hs in Hn; discriminate Hn | exact Hd].
      exfalso. destruct (action self); cbn [to_float as_int] in *;
        try discriminate Hn; injection Hn as <-; rewrite Hf in Ea;
        discriminate Ea.
  - intros e He.
    destruct Hcases as [(fa & _ & Hd) | [[_ Hd] | [_ Hd]]];
      rewrite Hd in He; [discriminate He | |]; injection He as <-; tauto.
Qed.

(** ** The message *)

(** [a / b] rounded to the nearest integer, ties to the even one
    ([0 < b]). *)
Definition round_half_even (a b : Z) : Z :=
  let (k, r) := Z.div_eucl a b in
  match (2 * r ?= b)%Z with
  | Lt => k
  | Gt => k + 1
  | Eq => if Z.even k then k else k + 1
  end.

(** [m * 2^e] in thousandths, rounded. *)
Definition thousandths (m : positive) (e : Z) : Z :=
  if (0 <=? e)%Z then Zpos m * 1000 * 2 ^ e
  else round_half_even (Zpos m * 1000) (2 ^ (- e)).

(** The decimal digits of a natural number. *)
Definition decimal (n : Z) : string :=
  DecimalString.NilZero.string_of_uint (N.to_uint (Z.to_N n)).

Definition digit (d : Z) : ascii := ascii_of_N (48 + Z.to_N d).

Definition three_digits (f : Z) : string :=
  String (digit (f / 100))
    (String (digit (f / 10 mod 10)) (String (digit (f mod 10)) "")).

(** A sign and a number of thousandths, written with three decimals. *)
Definition fixed3 (sign : bool) (n : Z) : string :=
  (if sign then "-" else "") ++ decimal (n / 1000) ++ "."
  ++ three_digits (n mod 1000).

(** [format(x, '.3f')] for a float: the decimal expansion of the double,
    rounded to three places (ties to even), with the sign of the double. *)
Definition format_3f_float (x : float) : string :=
  match Prim2SF x with
  | S754_nan => "nan"
  | S754_infinity s => if s then "-inf" else "inf"
  | S754_zero s => fixed3 s 0
  | S754_finite s m e => fixed3 s (thousandths m e)
  end.

(** [format(v, '.3f')]: an [int] (or [bool]) is converted to a float first;
    a [str] has no format code [f]. *)
Definition format_3f (v : pyval float) : res string :=
  match v with
  | PStr _ =>
      Raise (ValueError "Unknown format code 'f' for object of type 'str'")
  | _ => x <- to_float v ;; Ok (format_3f_float x)
  end.

(** [InfoMessage.get_message]: the fields are formatted in the order they
    occur in [MESSAGE]. *)
Definition get_message (self : InfoMessage float) : res string :=
  duration <- format_3f (info_duration self) ;;
  distance <- format_3f (info_distance self) ;;
  speed <- format_3f (info_speed self) ;;
  calories <- format_3f (info_calories self) ;;
  Ok ("Тип тренировки: " ++ training_type self ++ "; "
      ++ "Длительность: " ++ duration ++ " ч.; "
      ++ "Дистанция: " ++ distance ++ " км; "
      ++ "Ср. скорость: " ++ speed ++ " км/ч; "
      ++ "Потрачено ккал: " ++ calories ++ ".").

(** ** The driver *)

(** [main]: the line it prints. *)
Definition main (training : training float) : res string :=
  info <- show_training_info training ;; get_message info.

(** What the loop of the driver writes for a package: the message of the
    training, or [Ошибка:] followed by the text of the exception caught. *)
Inductive printed : Type :=
| Message (line : string)
| Error (e : exn).

(** The loop over the packages, each in a
    [try ... except (ValueError, TypeError)]: the lines printed, and the
    exception that ended the loop if one was not caught. *)
Fixpoint run_packages (packages : list (string * list (pyval float)))
    : list printed * option exn :=
  match packages with
  | [] => ([], None)
  | (workout_type, data) :: rest =>
      match (training <- read_package workout_type data ;; main training) with
      | Ok line =>
          let (lines, uncaught) := run_packages rest in
          (Message line :: lines, uncaught)
      | Raise e =>
          if except_catches [E_ValueError; E_TypeError] e then
            let (lines, uncaught) := run_packages rest in
            (Error e :: lines, uncaught)
          else ([], Some e)
      end
  end.

(** The packages of the driver. *)
Definition packages : list (string * list (pyval float)) :=
  [("SWM", [PInt 720; PInt 1; PInt 80; PInt 25; PInt 40]);
   ("RUN", [PInt 15000; PInt 1; PInt 75]);
   ("WLK", [PInt 9000; PInt 1; PInt 75; PInt 180]);
   ("ВWQ", [PInt 1; PInt 2; PInt 3]);
   ("SWM", [PInt 720; PInt 1; PInt 80; PInt 40; PStr "21"])].

(** What the program prints. *)
Example driver_output :
  run_packages packages =
    ([Message ("Тип тренировки: Swimming; Длительность: 1.000 ч.; "
               ++ "Дистанция: 0.994 км; Ср. скорость: 1.000 км/ч; "
               ++ "Потрачено ккал: 336.000.");
      Message ("Тип тренировки: Running; Длительность: 1.000 ч.; "
               ++ "Дистанция: 9.750 км; Ср. скорость: 9.750 км/ч; "
               ++ "Потрачено ккал: 797.805.");
      Message ("Тип тренировки: SportsWalking; Длительность: 1.000 ч.; "
               ++ "Дистанция: 5.850 км; Ср. скорость: 5.850 км/ч; "
               ++ "Потрачено ккал: 349.252.");
      Error (ValueError "Неизвестная тренировка");
      Error (ValueError
               "В массиве присутствуют значения, отличные от целых чисел")],
     None).
Proof. vm_compute. reflexivity. Qed.

(** ** What the getters return *)

Section Results.

Context {F : Type} `{PyFloat F}.

Implicit Types (v a b : pyval F) (r : res (pyval F)) (self : training F).

Lemma lift2_ok (op : pyval F -> pyval F -> res (pyval F)) r1 r2 v :
  lift2 op r1 r2 = Ok v ->
  exists a b, r1 = Ok a /\ r2 = Ok b /\ op a b = Ok v.
Proof.
  unfold lift2. destruct r1 as [a | e]; [| discriminate].
  destruct r2 as [b | e]; [| discriminate]. cbn [bind].
  intros E. now exists a, b.
Qed.

(** True division returns a float. *)
Lemma py_truediv_is_float a b v :
  py_truediv a b = Ok v -> exists x, v = PFloat x.
Proof.
  destruct a, b; unfold py_truediv, to_float; cbn [bind as_int];
    repeat match goal with
           | |- context [f_int ?n] => destruct (f_int n); cbn [bind]
           | |- context [f_ratio ?m ?n] => destruct (f_ratio m n)
           | |- context [if ?c then _ else _] => destruct c
           end;
    intros E; try discriminate E; injection E as <-; eexists; reflexivity.
Qed.

(** A product with a float is a float. *)
Lemma py_mul_float_l_is_float x b v :
  py_mul (PFloat x) b = Ok v -> exists y, v = PFloat y.
Proof.
  destruct b; unfold py_mul, to_float; cbn [bind];
    repeat match goal with
           | |- context [f_int ?n] => destruct (f_int n); cbn [bind]
           end;
    intros E; try discriminate E; injection E as <-; eexists; reflexivity.
Qed.

Lemma py_mul_float_r_is_float a x v :
  py_mul a (PFloat x) = Ok v -> exists y, v = PFloat y.
Proof.
  destruct a; unfold py_mul, to_float; cbn [bind];
    repeat match goal with
           | |- context [f_int ?n] => destruct (f_int n); cbn [bind]
           end;
    intros E; try discriminate E; injection E as <-; eexists; reflexivity.
Qed.

(** Dividing a float returns only if the divisor converts to a float. *)
Lemma py_truediv_float_l_ok x b v :
  py_truediv (PFloat x) b = Ok v -> exists y, to_float b = Ok y.
Proof.
  destruct b; unfold py_truediv, to_float; cbn [bind];
    repeat match goal with
           | |- context [f_int ?n] => destruct (f_int n); cbn [bind]
           end;
    intros E; try discriminate E; eexists; reflexivity.
Qed.

Lemma get_distance_is_float self v :
  get_distance self = Ok v -> exists x, v = PFloat x.
Proof.
  unfold get_distance. intros E.
  apply lift2_ok in E. destruct E as (a & b & _ & _ & E).
  now apply py_truediv_is_float in E.
Qed.

Lemma mean_speed_numerator_is_float self v :
  mean_speed_numerator self = Ok v -> exists x, v = PFloat x.
Proof.
  destruct self; cbn [mean_speed_numerator];
    try apply get_distance_is_float.
  intros E. apply lift2_ok in E. destruct E as (a & b & _ & _ & E).
  now apply py_truediv_is_float in E.
Qed.

(** When [get_mean_speed] returns, it returns a float, and the duration
    converts to a float. *)
Lemma get_mean_speed_is_float self v :
  get_mean_speed self = Ok v ->
  (exists x, v = PFloat x) /\ (exists y, to_float (duration self) = Ok y).
Proof.
  rewrite get_mean_speed_numerator. intros E.
  apply lift2_ok in E. destruct E as (a & b & Ea & Eb & E).
  injection Eb as <-.
  split; [now apply py_truediv_is_float in E |].
  destruct (mean_speed_numerator_is_float self Ea) as [x ->].
  now apply py_truediv_float_l_ok in E.
Qed.

(** When [get_spent_calories] returns, it returns a float. *)
Lemma get_spent_calories_is_float self v :
  get_spent_calories self = Ok v -> exists x, v = PFloat x.
Proof.
  destruct self; cbn [get_spent_calories]; try discriminate.
  - intros E. apply lift2_ok in E. destruct E as (a & b & _ & Eb & E).
    injection Eb as <-. now apply py_mul_float_r_is_float in E.
  - unfold bind at 1. destruct (lift2 py_mul _ _) as [ms |]; [| discriminate].
    unfold bind at 1. destruct (lift2 py_truediv _ _) as [hm |];
      [| discriminate].
    intros E. apply lift2_ok in E. destruct E as (u & z & _ & Ez & E).
    injection Ez as <-. now apply py_mul_float_r_is_float in E.
  - intros E. apply lift2_ok in E. destruct E as (y & b & Ey & _ & E).
    apply lift2_ok in Ey. destruct Ey as (y' & b' & Ey' & _ & Ey).
    apply lift2_ok in Ey'. destruct Ey' as (y'' & b'' & _ & Eb'' & Ey').
    injection Eb'' as <-.
    apply py_mul_float_r_is_float in Ey'. destruct Ey' as [x1 ->].
    apply py_mul_float_l_is_float in Ey. destruct Ey as [x2 ->].
    now apply py_mul_float_l_is_float in E.
Qed.

End Results.

(** ** Numbers in, floats or arithmetic errors out *)

Section Arithmetic.

Context {F : Type} `{PyFloat F}.

Implicit Types (v a b : pyval F) (r : res (pyval F)) (self : training F).

(** The two errors arithmetic on numbers can raise. *)
Definition arith_error (e : exn) : Prop :=
  e = ZeroDivisionError \/ e = OverflowError.

Definition float_or_arith_error r : Prop :=
  (exists x, r = Ok (PFloat x)) \/ (exists e, r = Raise e /\ arith_error e).

Definition number_or_arith_error r : Prop :=
  (exists v, r = Ok v /\ isinstance_float_int v = true)
  \/ (exists e, r = Raise e /\ arith_error e).

Lemma float_constant x : float_or_arith_error (Ok (PFloat x)).
Proof. left. now exists x. Qed.

Lemma number_field v :
  isinstance_float_int v = true -> number_or_arith_error (Ok v).
Proof. intros Hv. left. now exists v. Qed.

Lemma float_is_number r : float_or_arith_error r -> number_or_arith_error r.
Proof.
  intros [[x ->] | He]; [left; now exists (PFloat x) | now right].
Qed.

(** An operator that, given a float and a number, returns a float or raises
    an arithmetic error. *)
Definition float_op (op : pyval F -> pyval F -> res (pyval F)) : Prop :=
  forall x v, isinstance_float_int v = true ->
    float_or_arith_error (op (PFloat x) v)
    /\ float_or_arith_error (op v (PFloat x)).

Lemma to_float_cases v :
  isinstance_float_int v = true ->
  (exists y, to_float v = Ok y) \/ to_float v = Raise OverflowError.
Proof. apply to_float_number. Qed.

Lemma py_mul_float_l_raise x v e :
  to_float v = Raise e -> py_mul (PFloat x) v = Raise e.
Proof.
  intros E. destruct v; try discriminate E; unfold py_mul;
    try rewrite E; try reflexivity.
  now injection E as <-.
Qed.

Lemma py_add_float_l_raise x v e :
  to_float v = Raise e -> py_add (PFloat x) v = Raise e.
Proof.
  intros E. destruct v; try discriminate E; unfold py_add;
    try rewrite E; try reflexivity.
  now injection E as <-.
Qed.

Lemma py_add_float_r_raise v x e :
  to_float v = Raise e -> py_add v (PFloat x) = Raise e.
Proof.
  intros E. destruct v; try discriminate E; unfold py_add;
    try rewrite E; try reflexivity.
  now injection E as <-.
Qed.

Lemma py_mul_float_op : float_op py_mul.
Proof.
  intros x v Hv. destruct (to_float_cases v Hv) as [[y Ey] | Ey]; split.
  - rewrite (py_mul_float_l _ _ Ey). apply float_constant.
  - rewrite (py_mul_float_r _ _ Ey). apply float_constant.
  - rewrite (py_mul_float_l_raise _ _ Ey). right. eexists. split; [reflexivity | now right].
  - rewrite (py_mul_float_r_raise _ _ Ey). right. eexists. split; [reflexivity | now right].
Qed.

Lemma py_add_float_op : float_op py_add.
Proof.
  intros x v Hv. destruct (to_float_cases v Hv) as [[y Ey] | Ey]; split.
  - rewrite (py_add_float_l _ _ Ey). apply float_constant.
  - rewrite (py_add_float_r _ _ Ey). apply float_constant.
  - rewrite (py_add_float_l_raise _ _ Ey). right. eexists. split; [reflexivity | now right].
  - rewrite (py_add_float_r_raise _ _ Ey). right. eexists. split; [reflexivity | now right].
Qed.

Lemma py_truediv_float_op : float_op py_truediv.
Proof.
  intros x v Hv. destruct (to_float_cases v Hv) as [[y Ey] | Ey]; split.
  - rewrite (py_truediv_float_l _ _ Ey).
    destruct (f_is_zero y); [| apply float_constant].
    right. eexists. split; [reflexivity | now left].
  - rewrite (py_truediv_float_r _ _ Ey).
    destruct (f_is_zero x); [| apply float_constant].
    right. eexists. split; [reflexivity | now left].
  - rewrite (py_truediv_float_l_raise _ _ Ey). right. eexists. split; [reflexivity | now right].
  - rewrite (py_truediv_float_r_raise _ _ Ey). right. eexists. split; [reflexivity | now right].
Qed.

Lemma lift2_float_number op r1 r2 :
  float_op op ->
  float_or_arith_error r1 -> number_or_arith_error r2 ->
  float_or_arith_error (lift2 op r1 r2).
Proof.
  intros Hop [[x ->] | (e & -> & He)] H2; unfold lift2; cbn [bind].
  - destruct H2 as [(v & -> & Hv) | (e & -> & He)]; cbn [bind].
    + apply (Hop x v Hv).
    + right. now exists e.
  - right. now exists e.
Qed.

Lemma lift2_number_float op r1 r2 :
  float_op op ->
  number_or_arith_error r1 -> float_or_arith_error r2 ->
  float_or_arith_error (lift2 op r1 r2).
Proof.
  intros Hop [(v & -> & Hv) | (e & -> & He)] H2; unfold lift2; cbn [bind].
  - destruct H2 as [[x ->] | (e & -> & He)]; cbn [bind].
    + apply (Hop x v Hv).
    + right. now exists e.
  - right. now exists e.
Qed.

Lemma pow_float r :
  float_or_arith_error r -> float_or_arith_error (pow_MEAN_SPEED_POW_VALUE r).
Proof.
  intros [[x ->] | (e & -> & He)]; unfold pow_MEAN_SPEED_POW_VALUE, py_pow2;
    cbn [bind to_float].
  - destruct (f_pow2 x); [apply float_constant |].
    right. eexists. split; [reflexivity | now right].
  - right. now exists e.
Qed.

(** The product of two numbers, of any kind. *)
Lemma lift2_mul_numbers a b :
  isinstance_float_int a = true -> isinstance_float_int b = true ->
  number_or_arith_error (lift2 py_mul (Ok a) (Ok b)).
Proof.
  intros Ha Hb. unfold lift2. cbn [bind].
  destruct (py_mul_numbers _ _ Ha Hb) as [(p & -> & Hp) | ->].
  - left. now exists p.
  - right. eexists. split; [reflexivity | now right].
Qed.

Create HintDb py_arith.

Hint Resolve float_constant number_field float_is_number
  py_mul_float_op py_add_float_op py_truediv_float_op
  lift2_float_number lift2_number_float pow_float lift2_mul_numbers
  : py_arith.

Lemma numeric_fields self :
  Forall (fun v => isinstance_float_int v = true) (fields self) ->
  isinstance_float_int (action self) = true
  /\ isinstance_float_int (duration self) = true
  /\ isinstance_float_int (weight self) = true.
Proof.
  rewrite Forall_forall. intros Hnum.
  repeat split; apply Hnum; destruct self; cbn; tauto.
Qed.

Lemma get_distance_arith self :
  Forall (fun v => isinstance_float_int v = true) (fields self) ->
  float_or_arith_error (get_distance self).
Proof.
  intros Hnum. destruct (numeric_fields self Hnum) as (Ha & _ & _).
  unfold get_distance. auto 6 with py_arith.
Qed.

Lemma get_mean_speed_arith self :
  Forall (fun v => isinstance_float_int v = true) (fields self) ->
  float_or_arith_error (get_mean_speed self).
Proof.
  intros Hnum. destruct (numeric_fields self Hnum) as (Ha & Hd & _).
  pose proof (get_distance_arith self Hnum) as Hdist.
  destruct self as [a d w | a d w | a d w h | a d w lp cp | nm a d w];
    cbn [get_mean_speed duration] in *; auto 6 with py_arith.
  rewrite Forall_forall in Hnum.
  assert (Hlp : isinstance_float_int lp = true) by (apply Hnum; cbn; tauto).
  assert (Hcp : isinstance_float_int cp = true) by (apply Hnum; cbn; tauto).
  apply lift2_float_number; auto with py_arith.
Qed.

Lemma get_spent_calories_arith self :
  overrides_get_spent_calories self = true ->
  Forall (fun v => isinstance_float_int v = true) (fields self) ->
  float_or_arith_error (get_spent_calories self).
Proof.
  intros Hov Hnum. destruct (numeric_fields self Hnum) as (Ha & Hd & Hw).
  pose proof (get_mean_speed_arith self Hnum) as Hspeed.
  destruct self as [a d w | a d w | a d w h | a d w lp cp | nm a d w];
    try discriminate Hov; cbn [duration weight] in *;
    unfold get_spent_calories.
  - auto 12 with py_arith.
  - assert (Hh : isinstance_float_int h = true).
    { rewrite Forall_forall in Hnum. apply Hnum. cbn. tauto. }
    assert (Hms : float_or_arith_error
                    (lift2 py_mul (get_mean_speed (SportsWalking a d w h))
                       (Ok (PFloat KMH_IN_MSEC))))
      by auto with py_arith.
    destruct Hms as [[ms ->] | (e & -> & He)]; cbn [bind];
      [| right; now exists e].
    assert (Hhm : float_or_arith_error
                    (lift2 py_truediv (Ok h) (Ok (PFloat HEIGHT_DIV))))
      by auto with py_arith.
    destruct Hhm as [[hm ->] | (e & -> & He)]; cbn [bind];
      [| right; now exists e].
    auto 12 with py_arith.
  - auto 12 with py_arith.
Qed.

End Arithmetic.

(** ** Rendering a summary *)

Lemma format_3f_ok (v : pyval float) (y : float) :
  to_float v = Ok y -> format_3f v = Ok (format_3f_float y).
Proof.
  intros E. destruct v; try discriminate E; unfold format_3f;
    rewrite E; reflexivity.
Qed.

(** The text of a message, from the name and the four numbers. *)
Definition message_text (name : string) (duration distance speed calories : float)
    : string :=
  "Тип тренировки: " ++ name ++ "; "
  ++ "Длительность: " ++ format_3f_float duration ++ " ч.; "
  ++ "Дистанция: " ++ format_3f_float distance ++ " км; "
  ++ "Ср. скорость: " ++ format_3f_float speed ++ " км/ч; "
  ++ "Потрачено ккал: " ++ format_3f_float calories ++ ".".

Lemma main_of_summary (t : training float) (info : InfoMessage float) :
  show_training_info t = Ok info ->
  exists fd fdist fspeed fcal,
    to_float (duration t) = Ok fd
    /\ get_distance t = Ok (PFloat fdist)
    /\ get_mean_speed t = Ok (PFloat fspeed)
    /\ get_spent_calories t = Ok (PFloat fcal)
    /\ get_message info =
         Ok (message_text (type_name t) fd fdist fspeed fcal).
Proof.
  unfold show_training_info. intros E.
  destruct (get_distance t) as [dist |] eqn:Ed; [| discriminate E].
  destruct (get_mean_speed t) as [speed |] eqn:Es; [| discriminate E].
  destruct (get_spent_calories t) as [cal |] eqn:Ec; [| discriminate E].
  cbn [bind] in E. injection E as <-.
  destruct (get_distance_is_float t Ed) as [fdist ->].
  destruct (get_mean_speed_is_float t Es) as [[fspeed ->] [fd Efd]].
  destruct (get_spent_calories_is_float t Ec) as [fcal ->].
  exists fd, fdist, fspeed, fcal. repeat split; try assumption.
  unfold get_message. cbn [info_duration info_distance info_speed
                           info_calories training_type].
  rewrite (format_3f_ok _ Efd). reflexivity.
Qed.

(** A summary that [show_training_info] could build can be rendered:
    [get_message] raises nothing on it, whatever the fields of the instance,
    and returns the template filled with the name of the class and the
    duration, distance, speed and calories as floats with three decimals. *)
Theorem summary_is_rendered (t : training float) (info : InfoMessage float) :
  show_training_info t = Ok info ->
  exists fd fdist fspeed fcal,
    to_float (duration t) = Ok fd
    /\ get_distance t = Ok (PFloat fdist)
    /\ get_mean_speed t = Ok (PFloat fspeed)
    /\ get_spent_calories t = Ok (PFloat fcal)
    /\ get_message info =
         Ok (message_text (type_name t) fd fdist fspeed fcal)
    /\ main t = Ok (message_text (type_name t) fd fdist fspeed fcal).
Proof.
  intros E.
  destruct (main_of_summary t E) as (fd & fdist & fspeed & fcal & H).
  exists fd, fdist, fspeed, fcal.
  destruct H as (H1 & H2 & H3 & H4 & H5). repeat split; try assumption.
  unfold main. rewrite E. exact H5.
Qed.

Lemma summary_is_rendered_witness :
  exists fd fdist fspeed fcal,
    to_float (duration swimming_sample) = Ok fd
    /\ get_distance swimming_sample = Ok (PFloat fdist)
    /\ get_mean_speed swimming_sample = Ok (PFloat fspeed)
    /\ get_spent_calories swimming_sample = Ok (PFloat fcal)
    /\ get_message
         {| training_type := "Swimming";
            info_duration := PInt 1;
            info_distance := PFloat (distance_formula 720%float (f_lit 1.38));
            info_speed := PFloat (f_lit 1.0);
            info_calories := PFloat (f_lit 336.0) |} =
         Ok (message_text (type_name swimming_sample) fd fdist fspeed fcal)
    /\ main swimming_sample =
         Ok (message_text (type_name swimming_sample) fd fdist fspeed fcal).
Proof.
  apply (@summary_is_rendered swimming_sample).
  vm_compute. reflexivity.
Defined.

(** ** The loop of the driver *)

Lemma arith_error_not_caught (e : exn) :
  arith_error e -> except_catches [E_ValueError; E_TypeError] e = false.
Proof. intros [-> | ->]; reflexivity. Qed.

(** [main] on an instance the factory built: a line, or an arithmetic
    error. *)
Lemma main_outcome (t : training float) :
  overrides_get_spent_calories t = true ->
  Forall (fun v => isinstance_float_int v = true) (fields t) ->
  (exists line, main t = Ok line)
  \/ (exists e, main t = Raise e /\ arith_error e).
Proof.
  intros Hov Hnum.
  destruct (show_training_info t) as [info | e] eqn:E.
  - left. destruct (main_of_summary t E) as (fd & fdist & fspeed & fcal & H).
    eexists. unfold main. rewrite E. cbn [bind]. apply H.
  - right. exists e. split; [unfold main; now rewrite E |].
    unfold show_training_info in E.
    destruct (get_distance_arith t Hnum) as [[x Hx] | (e1 & H1 & He1)];
      rewrite ?Hx, ?H1 in E; cbn [bind] in E;
      [| injection E as <-; exact He1].
    destruct (get_mean_speed_arith t Hnum) as [[y Hy] | (e2 & H2 & He2)];
      rewrite ?Hy, ?H2 in E; cbn [bind] in E;
      [| injection E as <-; exact He2].
    destruct (get_spent_calories_arith t Hov Hnum)
      as [[z Hz] | (e3 & H3 & He3)];
      rewrite ?Hz, ?H3 in E; cbn [bind] in E;
      [discriminate E | injection E as <-; exact He3].
Qed.

(** One turn of the loop. *)
Definition turn (package : string * list (pyval float)) : res string :=
  training <- read_package (fst package) (snd package) ;; main training.

Lemma run_packages_cons package rest :
  run_packages (package :: rest) =
    match turn package with
    | Ok line =>
        (Message line :: fst (run_packages rest), snd (run_packages rest))
    | Raise e =>
        if except_catches [E_ValueError; E_TypeError] e then
          (Error e :: fst (run_packages rest), snd (run_packages rest))
        else ([], Some e)
    end.
Proof.
  destruct package as [workout_type data]. unfold turn.
  cbn [run_packages fst snd].
  destruct (bind _ _); [| destruct (except_catches _ _)];
    destruct (run_packages rest); reflexivity.
Qed.

(** A turn prints a message, or fails with one of the ValueErrors of the
    factory, or with an arithmetic error. *)
Lemma turn_outcome package :
  (exists line, turn package = Ok line)
  \/ (exists msg, turn package = Raise (ValueError msg)
                  /\ read_package (fst package) (snd package) =
                       Raise (ValueError msg))
  \/ (exists e, turn package = Raise e /\ arith_error e).
Proof.
  unfold turn.
  destruct (read_package_outcome (fst package) (snd package))
    as [| | | n t _ _ Hb Hf (cls & _ & Hi)]; cbn [bind];
    try (right; left; eexists; split; reflexivity).
  assert (Hnum : Forall (fun v => isinstance_float_int v = true) (fields t)).
  { rewrite Hf. now apply forallb_true_Forall. }
  destruct (main_outcome t (instance_overrides t cls Hi) Hnum)
    as [Hl | He]; [now left | now right; right].
Qed.

(** The loop over two lists of packages in a row: the second list is only
    reached if the first ended without an uncaught exception. *)
Lemma run_packages_app pre rest :
  run_packages (pre ++ rest)%list =
    match snd (run_packages pre) with
    | None => ((fst (run_packages pre) ++ fst (run_packages rest))%list,
               snd (run_packages rest))
    | Some e => run_packages pre
    end.
Proof.
  induction pre as [| package pre IH].
  - cbn [app run_packages fst snd]. now destruct (run_packages rest).
  - rewrite <- app_comm_cons, !run_packages_cons.
    destruct (turn package) as [line | e].
    + rewrite IH. cbn [fst snd].
      destruct (snd (run_packages pre)) eqn:Hs; cbn [fst snd];
        rewrite ?Hs; reflexivity.
    + destruct (except_catches _ e); [| reflexivity].
      rewrite IH. cbn [fst snd].
      destruct (snd (run_packages pre)) eqn:Hs; cbn [fst snd];
        rewrite ?Hs; reflexivity.
Qed.

(** The driver never reports a TypeError and never stops on one: whatever
    the packages, every error line it prints is a ValueError of the factory,
    an exception that ends the loop is ZeroDivisionError or OverflowError,
    and if none does there is one line per package. *)
Theorem driver_outcomes (batch : list (string * list (pyval float))) :
  (forall e, In (Error e) (fst (run_packages batch)) ->
     exists msg package,
       e = ValueError msg /\ In package batch
       /\ read_package (fst package) (snd package) = Raise e)
  /\ (forall e, snd (run_packages batch) = Some e -> arith_error e)
  /\ (snd (run_packages batch) = None ->
      List.length (fst (run_packages batch)) = List.length batch).
Proof.
  induction batch as [| package batch (IH1 & IH2 & IH3)].
  - cbn. repeat split; try discriminate; intros e [].
  - rewrite run_packages_cons.
    destruct (turn_outcome package)
      as [[line ->] | [(msg & -> & Hr) | (e0 & -> & He0)]].
    + cbn [fst snd]. split; [| split].
      * intros e [Hin | Hin]; [discriminate Hin |].
        destruct (IH1 e Hin) as (msg & p & -> & Hp & Hrp).
        exists msg, p. repeat split; [now right | exact Hrp].
      * exact IH2.
      * intros Hn. cbn [List.length]. now rewrite (IH3 Hn).
    + change (except_catches [E_ValueError; E_TypeError] (ValueError msg))
        with true.
      cbn [fst snd]. split; [| split].
      * intros e [Hin | Hin].
        -- injection Hin as <-. exists msg, package.
           repeat split; [now left | exact Hr].
        -- destruct (IH1 e Hin) as (msg' & p & -> & Hp & Hrp).
           exists msg', p. repeat split; [now right | exact Hrp].
      * exact IH2.
      * intros Hn. cbn [List.length]. now rewrite (IH3 Hn).
    + rewrite (arith_error_not_caught He0). cbn [fst snd].
      split; [| split].
      * intros e [].
      * intros e He. now injection He as <-.
      * discriminate.
Qed.

(** A package the factory rejects costs one error line and nothing else:
    the packages before and after it are processed as without it. *)
Theorem rejected_package_is_skipped pre package rest e :
  read_package (fst package) (snd package) = Raise e ->
  snd (run_packages pre) = None ->
  run_packages (pre ++ package :: rest)%list =
    ((fst (run_packages pre) ++ Error e :: fst (run_packages rest))%list,
     snd (run_packages rest))
  /\ run_packages (pre ++ rest)%list =
       ((fst (run_packages pre) ++ fst (run_packages rest))%list,
        snd (run_packages rest)).
Proof.
  intros Hr Hpre. rewrite !run_packages_app, Hpre. split; [| reflexivity].
  rewrite run_packages_cons. unfold turn. rewrite Hr. cbn [bind].
  destruct (read_package_raises_ValueError _ _ Hr) as [msg ->].
  reflexivity.
Qed.

Lemma rejected_package_is_skipped_witness :
  run_packages
    ([("RUN", [PInt 15000; PInt 1; PInt 75])]
       ++ ("RUN", [PInt 1; PStr "2"; PInt 3])
       :: [("SWM", [PInt 720; PInt 1; PInt 80; PInt 25; PInt 40])])%list =
    ((fst (run_packages [("RUN", [PInt 15000; PInt 1; PInt 75])])
       ++ Error (ValueError
                   "В массиве присутствуют значения, отличные от целых чисел")
       :: fst (run_packages
                 [("SWM", [PInt 720; PInt 1; PInt 80; PInt 25; PInt 40])]))%list,
     snd (run_packages
            [("SWM", [PInt 720; PInt 1; PInt 80; PInt 25; PInt 40])])).
Proof.
  apply (proj1 (@rejected_package_is_skipped
                  [("RUN", [PInt 15000; PInt 1; PInt 75])]
                  ("RUN", [PInt 1; PStr "2"; PInt 3])
                  [("SWM", [PInt 720; PInt 1; PInt 80; PInt 25; PInt 40])]
                  (ValueError
                     "В массиве присутствуют значения, отличные от целых чисел")
                  ltac:(vm_compute; reflexivity)
                  ltac:(vm_compute; reflexivity))).
Defined.

(** A valid package with a duration of zero ends the loop: the uncaught
    ZeroDivisionError (or the OverflowError of an [int] too large for a
    float) is not a ValueError or a TypeError, nothing is printed for the
    package, and the packages after it are never read. *)
Theorem zero_duration_stops_the_loop
    (code : string) (data : list (pyval float)) (n : nat) (d : pyval float) :
  required_arity code = Some n ->
  List.length data = n ->
  Forall (fun x => isinstance_float_int x = true) data ->
  nth_error data 1 = Some d ->
  py_is_zero d = true ->
  exists e,
    arith_error e
    /\ forall pre rest,
         snd (run_packages pre) = None ->
         run_packages (pre ++ (code, data) :: rest)%list =
           (fst (run_packages pre), Some e).
Proof.
  intros Hn Hlen Hnum Hd Hz.
  assert (Hb : forallb isinstance_float_int data = true)
    by now apply forallb_true_Forall.
  destruct (read_package_valid _ _ Hn Hlen Hb)
    as (t & E & Hf & cls & _ & Hcls).
  assert (Hdur : duration t = d).
  { pose proof (fields_duration t) as Hfd. rewrite Hf, Hd in Hfd.
    now injection Hfd. }
  destruct (b64_zero_to_float _ Hz) as (fd & Efd & Hfz).
  rewrite <- Hdur in Efd. rewrite <- Hf in Hnum.
  pose proof (get_mean_speed_zero_duration b64_M_IN_KM_nonzero t Hnum Efd Hfz)
    as Hs.
  assert (Hspeed : exists e, get_mean_speed t = Raise e /\ arith_error e).
  { destruct (mean_speed_numerator_number b64_M_IN_KM_nonzero t Hnum)
      as [[x Ex] | Ex]; rewrite Ex in Hs; cbn [bind] in Hs;
      eexists; (split; [exact Hs |]); [now left | now right]. }
  destruct Hspeed as (e1 & Hs1 & He1).
  assert (Hmain : exists e, main t = Raise e /\ arith_error e).
  { unfold main, show_training_info.
    destruct (get_distance_arith t Hnum) as [[x ->] | (e0 & -> & He0)];
      cbn [bind].
    - rewrite Hs1. cbn [bind]. now exists e1.
    - now exists e0. }
  destruct Hmain as (e & Hm & He). exists e. split; [exact He |].
  intros pre rest Hpre. rewrite run_packages_app, Hpre.
  rewrite run_packages_cons. unfold turn. cbn [fst snd].
  rewrite E. cbn [bind]. rewrite Hm, (arith_error_not_caught He).
  cbn [fst snd]. now rewrite app_nil_r.
Qed.

Lemma zero_duration_stops_the_loop_witness :
  exists e,
    arith_error e
    /\ forall pre rest,
         snd (run_packages pre) = None ->
         run_packages (pre ++ ("RUN", [PInt 15000; PInt 0; PInt 75]) :: rest)%list =
           (fst (run_packages pre), Some e).
Proof.
  apply (@zero_duration_stops_the_loop
           "RUN" [PInt 15000; PInt 0; PInt 75] 3%nat (PInt 0)).
  - reflexivity.
  - reflexivity.
  - repeat constructor.
  - reflexivity.
  - reflexivity.
Defined.

(** ** Three decimals *)

(** Rounding to the nearest integer is off by at most a half. *)
Lemma round_half_even_spec (a b : Z) :
  0 < b -> 0 <= a ->
  0 <= round_half_even a b /\ Z.abs (2 * a - 2 * round_half_even a b * b) <= b.
Proof.
  intros Hb Ha. unfold round_half_even.
  pose proof (Z_div_mod a b ltac:(lia)) as Hdm.
  destruct (Z.div_eucl a b) as [k r]. destruct Hdm as [Hab Hr].
  assert (0 <= k) by nia.
  destruct (2 * r ?= b)%Z eqn:C.
  - apply Z.compare_eq in C. destruct (Z.even k); split; try lia; nia.
  - rewrite Z.compare_lt_iff in C. split; [lia | nia].
  - rewrite Z.compare_gt_iff in C. split; [lia | nia].
Qed.

Lemma thousandths_spec (m : positive) (e : Z) :
  0 <= thousandths m e
  /\ (Qabs (inject_Z (Zpos m) * Qpower 2 e * 1000 - inject_Z (thousandths m e))
      <= 1 # 2)%Q.
Proof.
  unfold thousandths. destruct (Z.leb_spec 0 e) as [He | He].
  - split; [lia |].
    assert (E : (inject_Z (Zpos m) * Qpower 2 e * 1000
                 - inject_Z (Zpos m * 1000 * 2 ^ e) == 0)%Q).
    { rewrite !inject_Z_mult, (Zpower_Qpower 2 e He).
      change (inject_Z 2) with 2%Q. change (inject_Z 1000) with 1000%Q.
      generalize (Qpower 2 e). intros P. ring. }
    rewrite E. discriminate.
  - assert (Hb : 0 < 2 ^ (- e)) by (apply Z.pow_pos_nonneg; lia).
    destruct (@round_half_even_spec (Zpos m * 1000) (2 ^ (- e)) Hb ltac:(lia))
      as [Hn Habs].
    split; [exact Hn |].
    set (n := round_half_even (Zpos m * 1000) (2 ^ (- e))) in *.
    assert (Hp : (Qpower 2 e == / inject_Z (2 ^ (- e)))%Q).
    { rewrite <- (Z.opp_involutive e) at 1. rewrite Qpower_opp.
      rewrite (Zpower_Qpower 2 (- e)) by lia. reflexivity. }
    rewrite Hp. destruct (2 ^ (- e)) as [| p | p] eqn:Ep; try lia.
    apply Qabs_Qle_condition.
    apply Z.abs_le in Habs. clearbody n. clear Hp Ep.
    unfold Qle, Qminus, Qplus, Qmult, Qinv, Qopp, inject_Z.
    cbn [Qnum Qden]. rewrite ?Pos2Z.inj_mul. split; nia.
Qed.


(** Reading a decimal numeral. *)
Definition read_digits (s : string) : option Z :=
  option_map (fun u => Z.of_N (N.of_uint u)) (NilZero.uint_of_string s).

Fixpoint split_at_point (s : string) : option (string * string) :=
  match s with
  | "" => None
  | String c rest =>
      if Ascii.eqb c "." then Some ("", rest)
      else match split_at_point rest with
           | Some (before, after) => Some (String c before, after)
           | None => None
           end
  end.

(** The sign of a numeral, and the rest of it. *)
Definition strip_sign (s : string) : bool * string :=
  match s with
  | String c rest => if Ascii.eqb c "-" then (true, rest) else (false, s)
  | "" => (false, s)
  end.

(** Reading a numeral with three decimals: its sign and its thousandths. *)
Definition read_fixed3 (s : string) : option (bool * Z) :=
  let (sign, body) := strip_sign s in
  match split_at_point body with
  | Some (whole, decimals) =>
      if Nat.eqb (String.length decimals) 3 then
        match read_digits whole, read_digits decimals with
        | Some i, Some f => Some (sign, (i * 1000 + f)%Z)
        | _, _ => None
        end
      else None
  | None => None
  end.

Lemma strip_sign_signed (sign : bool) (body : string) c r :
  body = String c r -> Ascii.eqb c "-" = false ->
  strip_sign ((if sign then "-" else "") ++ body) = (sign, body).
Proof.
  intros -> Hc. destruct sign; cbn [append strip_sign];
    [reflexivity | now rewrite Hc].
Qed.

Lemma split_digits (d : Decimal.uint) (r : string) :
  split_at_point (NilEmpty.string_of_uint d ++ String "." r) =
    Some (NilEmpty.string_of_uint d, r).
Proof.
  induction d; cbn [NilEmpty.string_of_uint append split_at_point];
    try rewrite IHd; reflexivity.
Qed.

Lemma split_decimal (k : Z) (r : string) :
  split_at_point (decimal k ++ String "." r) = Some (decimal k, r).
Proof.
  unfold decimal, NilZero.string_of_uint.
  destruct (N.to_uint (Z.to_N k)) eqn:E; [reflexivity | ..];
    rewrite <- E; apply split_digits.
Qed.

Lemma decimal_first (k : Z) :
  exists c r, decimal k = String c r /\ Ascii.eqb c "-" = false.
Proof.
  unfold decimal, NilZero.string_of_uint.
  destruct (N.to_uint (Z.to_N k)); cbn [NilEmpty.string_of_uint];
    eexists; eexists; split; reflexivity.
Qed.

Lemma read_string_of_uint (d : Decimal.uint) :
  exists d', NilZero.uint_of_string (NilZero.string_of_uint d) = Some d'
             /\ N.of_uint d' = N.of_uint d.
Proof.
  destruct d; [exists Decimal.zero; split; reflexivity | ..];
    eexists; (split; [apply NilZero.usu; discriminate | reflexivity]).
Qed.

Lemma read_decimal (k : Z) : (0 <= k)%Z -> read_digits (decimal k) = Some k.
Proof.
  intros Hk. unfold read_digits, decimal.
  destruct (read_string_of_uint (N.to_uint (Z.to_N k))) as (d' & -> & Hd).
  cbn [option_map]. rewrite Hd, DecimalN.Unsigned.of_to, Z2N.id by lia.
  reflexivity.
Qed.

Definition three_digits_read_back (f : nat) : bool :=
  match read_digits (three_digits (Z.of_nat f)) with
  | Some g => Z.eqb g (Z.of_nat f)
  | None => false
  end.

Lemma read_three_digits (f : Z) :
  (0 <= f < 1000)%Z ->
  read_digits (three_digits f) = Some f
  /\ String.length (three_digits f) = 3%nat.
Proof.
  intros Hf. split; [| reflexivity].
  assert (Hall : forallb three_digits_read_back (seq 0 1000) = true)
    by (vm_compute; reflexivity).
  rewrite forallb_forall in Hall.
  specialize (Hall (Z.to_nat f)).
  unfold three_digits_read_back in Hall. rewrite Z2Nat.id in Hall by lia.
  destruct (read_digits (three_digits f)) as [g |].
  - f_equal. apply Z.eqb_eq. apply Hall. apply in_seq. lia.
  - discriminate Hall. apply in_seq. lia.
Qed.

(** What is written with three decimals reads back. *)
Lemma read_fixed3_fixed3 (sign : bool) (n : Z) :
  (0 <= n)%Z -> read_fixed3 (fixed3 sign n) = Some (sign, n).
Proof.
  intros Hn. unfold read_fixed3, fixed3.
  destruct (decimal_first (n / 1000)) as (c & r & Ec & Hc).
  rewrite (@strip_sign_signed sign _ c
             (r ++ "." ++ three_digits (n mod 1000)));
    [| rewrite Ec; reflexivity | exact Hc].
  change ("." ++ three_digits (n mod 1000))
    with (String "." (three_digits (n mod 1000))).
  rewrite split_decimal.
  destruct (@read_three_digits (n mod 1000)) as [-> ->].
  { apply Z.mod_pos_bound. lia. }
  rewrite read_decimal by (apply Z.div_pos; lia).
  cbn [Nat.eqb]. do 2 f_equal.
  pose proof (Z.div_mod n 1000 ltac:(lia)). lia.
Qed.


(** The number a sign and thousandths stand for. *)
Definition fixed3_value (sign : bool) (n : Z) : Q :=
  ((if sign then - (1) else 1) * inject_Z n * (1 # 1000))%Q.

(** [format(x, '.3f')] of a finite float is a numeral with three decimals
    that reads back as a number within 0.0005 of the float: the message
    shows every number correctly rounded to the third decimal. *)
Theorem format_3f_reads_back (x : float) (q : Q) :
  b64_to_Q x = Some q ->
  exists sign n,
    read_fixed3 (format_3f_float x) = Some (sign, n)
    /\ (0 <= n)%Z
    /\ (Qabs (q - fixed3_value sign n) <= 1 # 2000)%Q.
Proof.
  unfold b64_to_Q, format_3f_float.
  destruct (Prim2SF x) as [s | s | | s m e]; try discriminate;
    intros E; injection E as <-.
  - exists s, 0%Z. split; [now apply read_fixed3_fixed3 |]. split; [lia |].
    destruct s; vm_compute; discriminate.
  - destruct (thousandths_spec m e) as [Hn Hb].
    exists s, (thousandths m e).
    split; [now apply read_fixed3_fixed3 |]. split; [exact Hn |].
    apply Qabs_Qle_condition in Hb. apply Qabs_Qle_condition.
    unfold fixed3_value.
    set (N := inject_Z (thousandths m e)) in *.
    destruct s.
    + change (Z.neg m) with (- Z.pos m)%Z. rewrite inject_Z_opp.
      set (M := (inject_Z (Z.pos m) * 2 ^ e)%Q) in *.
      assert (HM : (- inject_Z (Z.pos m) * 2 ^ e == - M)%Q)
        by (unfold M; ring).
      rewrite HM. split; lra.
    + set (M := (inject_Z (Z.pos m) * 2 ^ e)%Q) in *.
      split; lra.
Qed.

(** ** More on the summary and the message *)

(** For every class but [Swimming], a summary is built whenever
    [get_spent_calories] returns, and holds the name of the class, the
    stored duration, and what the three getters return; for [Swimming], whose
    speed and calories do not read [action], the calories can be returned
    while the summary fails on the distance. *)
Theorem summary_follows_calories :
  (forall (F : Type) (PF : PyFloat F) (t : training F) (c : pyval F),
      is_swimming t = false ->
      get_spent_calories t = Ok c ->
      exists dist speed,
        get_distance t = Ok dist
        /\ get_mean_speed t = Ok speed
        /\ show_training_info t =
             Ok {| training_type := type_name t;
                   info_duration := duration t;
                   info_distance := dist;
                   info_speed := speed;
                   info_calories := c |})
  /\ (exists t : training float,
         read_package "SWM"
           [PInt (10 ^ 309); PInt 1; PInt 80; PInt 25; PInt 40] = Ok t
         /\ get_spent_calories t = Ok (PFloat 336%float)
         /\ show_training_info t = Raise OverflowError).
Proof.
  split.
  - intros F PF t c. apply summary_of_calories.
  - exists (Swimming (PInt (10 ^ 309)) (PInt 1) (PInt 80) (PInt 25) (PInt 40)).
    split; [vm_compute; reflexivity |].
    split; vm_compute; reflexivity.
Qed.

Lemma summary_follows_calories_witness :
  exists dist speed,
    get_distance running_sample = Ok dist
    /\ get_mean_speed running_sample = Ok speed
    /\ show_training_info running_sample =
         Ok {| training_type := type_name running_sample;
               info_duration := duration running_sample;
               info_distance := dist;
               info_speed := speed;
               info_calories :=
                 PFloat (running_calories_formula (f_lit 9.75) 75%float
                           1%float) |}.
Proof.
  apply (proj1 summary_follows_calories float binary64 running_sample).
  - reflexivity.
  - vm_compute. reflexivity.
Defined.


(** ** The extra theorems at concrete inputs *)

Lemma length_checked_before_elements_witness :
  read_package "SWM" [PStr "720"; PInt 1 : pyval float] =
    Raise (ValueError "Неправильное количествоэлементов для SWM").
Proof.
  apply (proj1 (@length_checked_before_elements float "SWM" 5%nat
                  [PStr "720"; PInt 1] eq_refl)).
  cbn. discriminate.
Defined.



Lemma format_3f_reads_back_witness :
  exists sign n,
    read_fixed3 (format_3f_float 0.0625%float) = Some (sign, n)
    /\ (0 <= n)%Z
    /\ (Qabs ((4503599627370496 # 72057594037927936) - fixed3_value sign n)
        <= 1 # 2000)%Q.
Proof.
  apply (@format_3f_reads_back 0.0625%float
           (4503599627370496 # 72057594037927936)).
  vm_compute. reflexivity.
Defined.
